(** * CommandBufferHelper: a shallow embedding of the client side of the
    GPU command-buffer ring protocol (gpu/command_buffer/client/cmd_buffer_helper.cc).

    The helper object and the client's view of the CommandBuffer proxy are one
    record, [World].  The service on the other side of the CommandBuffer is an
    oracle: [service n] is its reply to the n-th synchronous query
    (GetState or FlushSync).  Every call that reaches the service, and every
    write into the ring entries, is appended to the [trace] of the world.
    Reads of the proxy's cached last state (GetLastState, GetLastToken,
    GetLastError) are plain reads and are not logged.

    Loops of the source ([while] around FlushSync) are written with a fuel
    argument; [None] means the fuel ran out, i.e. the loop had not finished. *)

From Stdlib Require Import ZArith List Bool Lia.
Import ListNotations.
Open Scope Z_scope.

(** CommandBuffer::State, the snapshot the service reports. *)
Record CmdState := mkCmdState {
  num_entries : Z;
  get_offset_s : Z;
  put_offset_s : Z;
  token_s : Z;
  error_s : Z
}.

(** error::kNoError *)
Definition kNoError : Z := 0.

(** Interaction with the service and with the ring memory. *)
Inductive Event :=
| ECreateTransferBuffer (size id : Z)
| ESetGetBuffer (id : Z)
| EGetState (reply : CmdState)
| EFlush (put : Z)
| EFlushSync (put last_known_get : Z) (reply : CmdState)
| EDestroyTransferBuffer (id : Z)
| ENoop (offset skip : Z)          (* cmd::Noop::Set(&entries_[offset], skip) *)
| ESetToken (offset token : Z).    (* cmd::SetToken::Init(token) at offset *)

(** The members of CommandBufferHelper, plus the proxy's cached last state,
    the number of synchronous replies consumed and the trace. *)
Record World := mkWorld {
  usable_ : bool;
  context_lost_ : bool;
  ring_buffer_id_ : Z;
  ring_buffer_size_ : Z;
  total_entry_count_ : Z;
  immediate_entry_count_ : Z;
  token_ : Z;
  put_ : Z;
  last_put_sent_ : Z;
  flush_automatically_ : bool;
  last_flush_time_ : Z;
  flush_generation_ : Z;  (* a 32-bit counter: ++ wraps modulo 2^32 *)
  last_state : CmdState;
  nsync : nat;
  trace : list Event
}.

(** Field updates. *)
Definition set_usable b w := mkWorld b (context_lost_ w) (ring_buffer_id_ w) (ring_buffer_size_ w) (total_entry_count_ w) (immediate_entry_count_ w) (token_ w) (put_ w) (last_put_sent_ w) (flush_automatically_ w) (last_flush_time_ w) (flush_generation_ w) (last_state w) (nsync w) (trace w).
Definition set_context_lost b w := mkWorld (usable_ w) b (ring_buffer_id_ w) (ring_buffer_size_ w) (total_entry_count_ w) (immediate_entry_count_ w) (token_ w) (put_ w) (last_put_sent_ w) (flush_automatically_ w) (last_flush_time_ w) (flush_generation_ w) (last_state w) (nsync w) (trace w).
Definition set_ring_buffer_id x w := mkWorld (usable_ w) (context_lost_ w) x (ring_buffer_size_ w) (total_entry_count_ w) (immediate_entry_count_ w) (token_ w) (put_ w) (last_put_sent_ w) (flush_automatically_ w) (last_flush_time_ w) (flush_generation_ w) (last_state w) (nsync w) (trace w).
Definition set_ring_buffer_size x w := mkWorld (usable_ w) (context_lost_ w) (ring_buffer_id_ w) x (total_entry_count_ w) (immediate_entry_count_ w) (token_ w) (put_ w) (last_put_sent_ w) (flush_automatically_ w) (last_flush_time_ w) (flush_generation_ w) (last_state w) (nsync w) (trace w).
Definition set_total_entry_count x w := mkWorld (usable_ w) (context_lost_ w) (ring_buffer_id_ w) (ring_buffer_size_ w) x (immediate_entry_count_ w) (token_ w) (put_ w) (last_put_sent_ w) (flush_automatically_ w) (last_flush_time_ w) (flush_generation_ w) (last_state w) (nsync w) (trace w).
Definition set_immediate_entry_count x w := mkWorld (usable_ w) (context_lost_ w) (ring_buffer_id_ w) (ring_buffer_size_ w) (total_entry_count_ w) x (token_ w) (put_ w) (last_put_sent_ w) (flush_automatically_ w) (last_flush_time_ w) (flush_generation_ w) (last_state w) (nsync w) (trace w).
Definition set_token x w := mkWorld (usable_ w) (context_lost_ w) (ring_buffer_id_ w) (ring_buffer_size_ w) (total_entry_count_ w) (immediate_entry_count_ w) x (put_ w) (last_put_sent_ w) (flush_automatically_ w) (last_flush_time_ w) (flush_generation_ w) (last_state w) (nsync w) (trace w).
Definition set_put x w := mkWorld (usable_ w) (context_lost_ w) (ring_buffer_id_ w) (ring_buffer_size_ w) (total_entry_count_ w) (immediate_entry_count_ w) (token_ w) x (last_put_sent_ w) (flush_automatically_ w) (last_flush_time_ w) (flush_generation_ w) (last_state w) (nsync w) (trace w).
Definition set_last_put_sent x w := mkWorld (usable_ w) (context_lost_ w) (ring_buffer_id_ w) (ring_buffer_size_ w) (total_entry_count_ w) (immediate_entry_count_ w) (token_ w) (put_ w) x (flush_automatically_ w) (last_flush_time_ w) (flush_generation_ w) (last_state w) (nsync w) (trace w).
Definition set_flush_automatically b w := mkWorld (usable_ w) (context_lost_ w) (ring_buffer_id_ w) (ring_buffer_size_ w) (total_entry_count_ w) (immediate_entry_count_ w) (token_ w) (put_ w) (last_put_sent_ w) b (last_flush_time_ w) (flush_generation_ w) (last_state w) (nsync w) (trace w).
Definition set_last_flush_time x w := mkWorld (usable_ w) (context_lost_ w) (ring_buffer_id_ w) (ring_buffer_size_ w) (total_entry_count_ w) (immediate_entry_count_ w) (token_ w) (put_ w) (last_put_sent_ w) (flush_automatically_ w) x (flush_generation_ w) (last_state w) (nsync w) (trace w).
Definition set_flush_generation x w := mkWorld (usable_ w) (context_lost_ w) (ring_buffer_id_ w) (ring_buffer_size_ w) (total_entry_count_ w) (immediate_entry_count_ w) (token_ w) (put_ w) (last_put_sent_ w) (flush_automatically_ w) (last_flush_time_ w) x (last_state w) (nsync w) (trace w).
Definition set_reply st w := mkWorld (usable_ w) (context_lost_ w) (ring_buffer_id_ w) (ring_buffer_size_ w) (total_entry_count_ w) (immediate_entry_count_ w) (token_ w) (put_ w) (last_put_sent_ w) (flush_automatically_ w) (last_flush_time_ w) (flush_generation_ w) st (S (nsync w)) (trace w).
Definition log e w := mkWorld (usable_ w) (context_lost_ w) (ring_buffer_id_ w) (ring_buffer_size_ w) (total_entry_count_ w) (immediate_entry_count_ w) (token_ w) (put_ w) (last_put_sent_ w) (flush_automatically_ w) (last_flush_time_ w) (flush_generation_ w) (last_state w) (nsync w) (trace w ++ [e]).

(** Modelled from the spec: the constants of cmd_buffer_helper.h and
    cmd_buffer_common.h, which are not under src/.  The spec names two
    auto-flush tiers, "small" when the service has caught up (the lower
    threshold) and "big" when it is busy; as in the header, the limit is
    1/16 of the buffer in the small tier and 1/2 in the big one.  A command
    header's size field holds at most 2^21 - 1 entries; an entry is 4 bytes;
    the spec says a token command occupies one entry. *)
Definition kAutoFlushSmall : Z := 16.
Definition kAutoFlushBig : Z := 2.
Definition kMaxSize : Z := 2 ^ 21 - 1.
Definition sizeof_CommandBufferEntry : Z := 4.
Definition kSetTokenEntries : Z := 1.

Section Helper.

(** The service: its reply to the n-th synchronous query, the id returned by
    CreateTransferBuffer for a given size (negative on failure), and clock()
    as a function of the number of events so far. *)
Variable service : nat -> CmdState.
Variable create_transfer_id : Z -> Z.
Variable clock : nat -> Z.

(** Modelled from the spec: the inline accessors of cmd_buffer_helper.h
    (usable(), HaveRingBuffer(), get_offset(), last_token_read()), which read
    the helper's members and the proxy's last reported state. *)
Definition usable (w : World) : bool := usable_ w.
Definition HaveRingBuffer (w : World) : bool := negb (ring_buffer_id_ w =? -1).
Definition get_offset (w : World) : Z := get_offset_s (last_state w).
Definition last_token_read (w : World) : Z := token_s (last_state w).

(** CommandBuffer::GetState: a synchronous query of the service. *)
Definition chan_GetState (w : World) : CmdState * World :=
  let st := service (nsync w) in (st, log (EGetState st) (set_reply st w)).

(** CommandBuffer::FlushSync(put, last_known_get): synchronous. *)
Definition chan_FlushSync (put last_known_get : Z) (w : World) : CmdState * World :=
  let st := service (nsync w) in
  (st, log (EFlushSync put last_known_get st) (set_reply st w)).

(** CommandBufferHelper::CalcImmediateEntries *)
Definition CalcImmediateEntries (waiting_count : Z) (w : World) : World :=
  if negb (usable w) || negb (HaveRingBuffer w) then set_immediate_entry_count 0 w
  else
    let curr_get := get_offset w in
    let imm :=
      if curr_get >? put_ w then curr_get - put_ w - 1
      else total_entry_count_ w - put_ w - (if curr_get =? 0 then 1 else 0) in
    if flush_automatically_ w then
      let limit :=
        Z.quot (total_entry_count_ w)
          (if curr_get =? last_put_sent_ w then kAutoFlushSmall else kAutoFlushBig) in
      let pending :=
        Z.rem (put_ w + total_entry_count_ w - last_put_sent_ w) (total_entry_count_ w) in
      if (pending >? 0) && (pending >=? limit) then set_immediate_entry_count 0 w
      else
        let limit := limit - pending in
        let limit := if limit <? waiting_count then waiting_count else limit in
        set_immediate_entry_count (if imm >? limit then limit else imm) w
    else set_immediate_entry_count imm w.

(** CommandBufferHelper::SetAutomaticFlushes *)
Definition SetAutomaticFlushes (enabled : bool) (w : World) : World :=
  CalcImmediateEntries 0 (set_flush_automatically enabled w).

(** CommandBufferHelper::IsContextLost *)
Definition IsContextLost (w : World) : bool * World :=
  let w := if negb (context_lost_ w)
           then set_context_lost (negb (error_s (last_state w) =? kNoError)) w
           else w in
  (context_lost_ w, w).

(** Modelled from the spec: ClearUsable() of cmd_buffer_helper.h, which marks
    the helper permanently unusable ([usable = false]) and recomputes the
    immediate entry count.  The spec states no effect on context_lost_, and
    no statement below depends on one. *)
Definition ClearUsable (w : World) : World :=
  CalcImmediateEntries 0 (set_usable false w).

(** CommandBufferHelper::AllocateRingBuffer *)
Definition AllocateRingBuffer (w : World) : bool * World :=
  if negb (usable w) then (false, w)
  else if HaveRingBuffer w then (true, w)
  else
    let id := create_transfer_id (ring_buffer_size_ w) in
    let w := log (ECreateTransferBuffer (ring_buffer_size_ w) id) w in
    if id <? 0 then (false, ClearUsable w)
    else
      let w := log (ESetGetBuffer id) (set_ring_buffer_id id w) in
      let (state, w) := chan_GetState w in
      let num_ring_buffer_entries :=
        Z.quot (ring_buffer_size_ w) sizeof_CommandBufferEntry in
      if num_ring_buffer_entries >? num_entries state then (false, ClearUsable w)
      else
        let w := set_put (put_offset_s state)
                   (set_total_entry_count num_ring_buffer_entries w) in
        (true, CalcImmediateEntries 0 w).

(** CommandBufferHelper::FreeResources (also the destructor) *)
Definition FreeResources (w : World) : World :=
  if HaveRingBuffer w then
    CalcImmediateEntries 0
      (set_ring_buffer_id (-1) (log (EDestroyTransferBuffer (ring_buffer_id_ w)) w))
  else w.

(** CommandBufferHelper::FreeRingBuffer; [None] when the CHECK aborts. *)
Definition FreeRingBuffer (w : World) : option World :=
  if (put_ w =? get_offset w) || negb (error_s (last_state w) =? kNoError)
  then Some (FreeResources w) else None.

(** CommandBufferHelper::Initialize *)
Definition Initialize (ring_buffer_size : Z) (w : World) : bool * World :=
  AllocateRingBuffer (set_ring_buffer_size ring_buffer_size w).

(** Wrap put_ before flush. *)
Definition wrap_put (w : World) : World :=
  if put_ w =? total_entry_count_ w then set_put 0 w else w.

(** CommandBufferHelper::FlushSync *)
Definition FlushSync (w : World) : bool * World :=
  if negb (usable w) then (false, w)
  else
    let w := wrap_put w in
    let w := set_last_flush_time (clock (length (trace w))) w in
    let w := set_last_put_sent (put_ w) w in
    let (state, w) := chan_FlushSync (put_ w) (get_offset w) w in
    let w := set_flush_generation (Z.land (flush_generation_ w + 1) 4294967295) w in
    let w := CalcImmediateEntries 0 w in
    (error_s state =? kNoError, w).

(** CommandBufferHelper::Flush *)
Definition Flush (w : World) : World :=
  let w := wrap_put w in
  if usable w && negb (last_put_sent_ w =? put_ w) then
    let w := set_last_flush_time (clock (length (trace w))) w in
    let w := set_last_put_sent (put_ w) w in
    let w := log (EFlush (put_ w)) w in
    let w := set_flush_generation (Z.land (flush_generation_ w + 1) 4294967295) w in
    CalcImmediateEntries 0 w
  else w.

(** The do/while loop of CommandBufferHelper::Finish. *)
Fixpoint finish_loop (fuel : nat) (w : World) : option (bool * World) :=
  match fuel with
  | O => None
  | S f =>
      let (ok, w) := FlushSync w in
      if negb ok then Some (false, w)
      else if negb (put_ w =? get_offset w) then finish_loop f w
      else Some (true, w)
  end.

(** CommandBufferHelper::Finish *)
Definition Finish (fuel : nat) (w : World) : option (bool * World) :=
  if negb (usable w) then Some (false, w)
  else if put_ w =? get_offset w then Some (true, w)
  else finish_loop fuel w.

(** How WaitForToken ends: it returns, or LOG(FATAL) aborts the process. *)
Inductive WaitOutcome := WaitReturned | WaitFatal.

(** The while loop of CommandBufferHelper::WaitForToken. *)
Fixpoint wait_token_loop (fuel : nat) (token : Z) (w : World)
  : option (WaitOutcome * World) :=
  match fuel with
  | O => None
  | S f =>
      if last_token_read w <? token then
        if get_offset w =? put_ w then Some (WaitFatal, w)
        else
          let (ok, w) := FlushSync w in
          if negb ok then Some (WaitReturned, w) else wait_token_loop f token w
      else Some (WaitReturned, w)
  end.

(** CommandBufferHelper::WaitForToken *)
Definition WaitForToken (fuel : nat) (token : Z) (w : World)
  : option (WaitOutcome * World) :=
  if negb (usable w) || negb (HaveRingBuffer w) then Some (WaitReturned, w)
  else if token <? 0 then Some (WaitReturned, w)
  else if token >? token_ w then Some (WaitReturned, w)
  else wait_token_loop fuel token w.

(** The wrap wait of WaitForAvailableEntries:
    [while (curr_get > put_ || curr_get == 0)] around FlushSync.  The
    boolean is false when a FlushSync failed and the function returned. *)
Fixpoint wrap_wait (fuel : nat) (w : World) : option (bool * World) :=
  match fuel with
  | O => None
  | S f =>
      if (get_offset w >? put_ w) || (get_offset w =? 0) then
        let (ok, w) := FlushSync w in
        if negb ok then Some (false, w) else wrap_wait f w
      else Some (true, w)
  end.

(** The no-op fill of WaitForAvailableEntries: [while (num_entries > 0)]
    writes a Noop of [min(kMaxSize, num_entries)] entries at put_ and
    advances put_.  Each round removes at least one entry, so [Z.to_nat n]
    rounds always suffice (see [pad_tail_fuel_enough]). *)
Fixpoint pad_tail_fuel (fuel : nat) (num_entries : Z) (w : World) : World :=
  match fuel with
  | O => w
  | S f =>
      if num_entries >? 0 then
        let num_to_skip := Z.min kMaxSize num_entries in
        pad_tail_fuel f (num_entries - num_to_skip)
          (set_put (put_ w + num_to_skip) (log (ENoop (put_ w) num_to_skip) w))
      else w
  end.

Definition pad_tail (num_entries : Z) (w : World) : World :=
  pad_tail_fuel (Z.to_nat num_entries) num_entries w.

(** The last loop of WaitForAvailableEntries:
    [while (immediate_entry_count_ < count)] around FlushSync. *)
Fixpoint space_wait (fuel : nat) (count : Z) (w : World) : option World :=
  match fuel with
  | O => None
  | S f =>
      if immediate_entry_count_ w <? count then
        let (ok, w) := FlushSync w in
        if negb ok then Some w else space_wait f count (CalcImmediateEntries count w)
      else Some w
  end.

(** First part of WaitForAvailableEntries: wrap the buffer when the command
    does not fit before the physical end.  [false]: returned early. *)
Definition wrap_phase (fuel : nat) (count : Z) (w : World) : option (bool * World) :=
  if put_ w + count >? total_entry_count_ w then
    match wrap_wait fuel w with
    | None => None
    | Some (false, w1) => Some (false, w1)
    | Some (true, w1) =>
        Some (true, set_put 0 (pad_tail (total_entry_count_ w1 - put_ w1) w1))
    end
  else Some (true, w).

(** Second part of WaitForAvailableEntries: get [count] contiguous entries. *)
Definition space_phase (fuel : nat) (count : Z) (w : World) : option World :=
  let w := CalcImmediateEntries count w in
  if immediate_entry_count_ w <? count then
    let w := CalcImmediateEntries count (Flush w) in
    if immediate_entry_count_ w <? count then space_wait fuel count w else Some w
  else Some w.

(** CommandBufferHelper::WaitForAvailableEntries *)
Definition WaitForAvailableEntries (fuel : nat) (count : Z) (w : World) : option World :=
  let (_, w) := AllocateRingBuffer w in
  if negb (usable w) then Some w
  else
    match wrap_phase fuel count w with
    | None => None
    | Some (false, w) => Some w
    | Some (true, w) => space_phase fuel count w
    end.

(** Modelled from the spec: GetSpace(entries) of cmd_buffer_helper.h, the
    ReserveEntries primitive of the spec: when fewer than [entries] entries
    are immediately available it waits through WaitForAvailableEntries and
    yields NULL ([None] offset) if they are still missing; otherwise it hands
    out the entries at put_ and advances put_. *)
Definition GetSpace (fuel : nat) (entries : Z) (w : World) : option (option Z * World) :=
  let ow := if entries >? immediate_entry_count_ w
            then WaitForAvailableEntries fuel entries w else Some w in
  match ow with
  | None => None
  | Some w =>
      if entries >? immediate_entry_count_ w then Some (None, w)
      else
        let space := put_ w in
        let w := set_put (put_ w + entries) w in
        let w := set_immediate_entry_count (immediate_entry_count_ w - entries) w in
        Some (Some space, w)
  end.

(** CommandBufferHelper::InsertToken *)
Definition InsertToken (fuel : nat) (w : World) : option (Z * World) :=
  let (_, w) := AllocateRingBuffer w in
  if negb (usable w) then Some (token_ w, w)
  else
    let w := set_token (Z.land (token_ w + 1) 2147483647) w in
    match GetSpace fuel kSetTokenEntries w with
    | None => None
    | Some (None, w) => Some (token_ w, w)
    | Some (Some off, w) =>
        let w := log (ESetToken off (token_ w)) w in
        if token_ w =? 0 then
          match Finish fuel w with
          | None => None
          | Some (_, w) => Some (token_ w, w)
          end
        else Some (token_ w, w)
    end.

(** The public operations of the helper. *)
Inductive Op :=
| OpSetAutomaticFlushes (enabled : bool)
| OpIsContextLost
| OpAllocateRingBuffer
| OpFreeResources
| OpFreeRingBuffer
| OpInitialize (ring_buffer_size : Z)
| OpFlushSync
| OpFlush
| OpFinish
| OpInsertToken
| OpWaitForToken (token : Z)
| OpWaitForAvailableEntries (count : Z)
| OpGetSpace (entries : Z).

(** One operation; [None] when it does not return (fuel exhausted or abort). *)
Definition run_op (fuel : nat) (op : Op) (w : World) : option World :=
  match op with
  | OpSetAutomaticFlushes b => Some (SetAutomaticFlushes b w)
  | OpIsContextLost => Some (snd (IsContextLost w))
  | OpAllocateRingBuffer => Some (snd (AllocateRingBuffer w))
  | OpFreeResources => Some (FreeResources w)
  | OpFreeRingBuffer => FreeRingBuffer w
  | OpInitialize n => Some (snd (Initialize n w))
  | OpFlushSync => Some (snd (FlushSync w))
  | OpFlush => Some (Flush w)
  | OpFinish => option_map snd (Finish fuel w)
  | OpInsertToken => option_map snd (InsertToken fuel w)
  | OpWaitForToken t =>
      match WaitForToken fuel t w with
      | Some (WaitReturned, w') => Some w'
      | _ => None
      end
  | OpWaitForAvailableEntries c => WaitForAvailableEntries fuel c w
  | OpGetSpace n => option_map snd (GetSpace fuel n w)
  end.


(** A sequence of operations, stopping at the first that does not return. *)
Fixpoint run_ops (fuel : nat) (ops : list Op) (w : World) : option World :=
  match ops with
  | [] => Some w
  | op :: r =>
      match run_op fuel op w with
      | Some w' => run_ops fuel r w'
      | None => None
      end
  end.

End Helper.

(** The constructor CommandBufferHelper(command_buffer).  flush_generation_
    is not initialised by the constructor; [gen] stands for its value.  [st]
    is the proxy's last state before any query. *)
Definition new_helper (st : CmdState) (gen : Z) : World :=
  mkWorld true false (-1) 0 0 0 0 0 0 true 0 gen st O [].

(** ** Statement-level vocabulary *)

(** The writable-space formula of the spec (section 4.2). *)
Definition spec_writable (w : World) : Z :=
  if get_offset w >? put_ w then get_offset w - put_ w - 1
  else total_entry_count_ w - put_ w - (if get_offset w =? 0 then 1 else 0).

(** The auto-flush limit and the pending count of CalcImmediateEntries. *)
Definition auto_flush_limit (w : World) : Z :=
  Z.quot (total_entry_count_ w)
    (if get_offset w =? last_put_sent_ w then kAutoFlushSmall else kAutoFlushBig).

Definition is_flush_sync (e : Event) : bool :=
  match e with EFlushSync _ _ _ => true | _ => false end.

Definition flush_sync_ok (e : Event) : bool :=
  match e with EFlushSync _ _ st => error_s st =? kNoError | _ => false end.

(** [noop_cover p q evs]: [evs] are no-op records filling [p, q) contiguously. *)
Fixpoint noop_cover (p q : Z) (evs : list Event) : Prop :=
  match evs with
  | [] => p = q
  | ENoop o k :: r => o = p /\ 0 < k /\ noop_cover (p + k) q r
  | _ :: _ => False
  end.

(** The fields a call leaves alone, and the trace it only extends. *)
Definition frame (w w' : World) : Prop :=
  usable_ w' = usable_ w /\ ring_buffer_id_ w' = ring_buffer_id_ w /\
  total_entry_count_ w' = total_entry_count_ w /\ token_ w' = token_ w /\
  flush_automatically_ w' = flush_automatically_ w /\
  exists evs, trace w' = trace w ++ evs.

(** The channel calls that advance flush_generation_: Flush and FlushSync. *)
Definition is_flush (e : Event) : bool :=
  match e with EFlush _ | EFlushSync _ _ _ => true | _ => false end.

Definition fcount (evs : list Event) : Z := Z.of_nat (length (filter is_flush evs)).

(** What a call other than IsContextLost and Initialize leaves alone:
    context_lost_, usable_ and ring_buffer_size_; the trace is only extended,
    and flush_generation_ advances, modulo 2^32, by the number of flushes
    sent. *)
Definition kept (w w' : World) : Prop :=
  context_lost_ w' = context_lost_ w /\ usable_ w' = usable_ w /\
  ring_buffer_size_ w' = ring_buffer_size_ w /\
  exists evs, trace w' = trace w ++ evs /\
              flush_generation_ w' mod 2 ^ 32 = (flush_generation_ w + fcount evs) mod 2 ^ 32.

(** As [kept], except that the helper may have been cleared (ClearUsable):
    usable_ may drop to false, and context_lost_ is only known not to go
    from true back to false. *)
Definition kept_or_cleared (w w' : World) : Prop :=
  (context_lost_ w = true -> context_lost_ w' = true) /\
  (usable_ w' = usable_ w \/ usable_ w' = false) /\
  ring_buffer_size_ w' = ring_buffer_size_ w /\
  exists evs, trace w' = trace w ++ evs /\
              flush_generation_ w' mod 2 ^ 32 = (flush_generation_ w + fcount evs) mod 2 ^ 32.

(** ** Concrete helpers used by the witnesses and counterexamples *)

(** A service reply with an 8-entry ring. *)
Definition st8 (get put token error : Z) : CmdState := mkCmdState 8 get put token error.

(** A usable helper with an allocated 8-entry ring (id 1, 32 bytes). *)
Definition ring8 (auto : bool) (imm token put last_sent : Z) (st : CmdState) : World :=
  mkWorld true false 1 32 8 imm token put last_sent auto 0 0 st O [].

(** Scenario A: 3 entries reserved and flushed, the service reports get 3. *)
Definition scenarioA (auto : bool) : World := ring8 auto 0 0 3 3 (st8 3 3 0 kNoError).

(** A 64-entry ring with 4 entries pending since the last flush at 0. *)
Definition ring64 (get : Z) : World :=
  mkWorld true false 1 256 64 0 0 4 0 true 0 0 (mkCmdState 64 get 0 0 kNoError) O [].

Definition clock0 : nat -> Z := fun _ => 0.

(** Scenario B: put 6 of 8, the service first reports get 0, then get 5. *)
Definition serviceB (n : nat) : CmdState :=
  match n with O => st8 0 6 0 kNoError | _ => st8 5 6 0 kNoError end.
Definition scenarioB : World := ring8 false 0 0 6 6 (st8 7 6 0 kNoError).

(** A service that reports an error on every query. *)
Definition service_error (n : nat) : CmdState := st8 6 5 7 1.

(** A service that drains the ring: get follows put and acknowledges token 0. *)
Definition service_drain (n : nat) : CmdState := st8 6 6 0 kNoError.

(** A service that first frees two entries (get 0), then catches up with
    put 6 and acknowledges token 0. *)
Definition service_wrap (n : nat) : CmdState :=
  match n with O => st8 0 5 7 kNoError | _ => st8 6 6 0 kNoError end.

(** A service that has consumed up to offset 3 and acknowledged token 1. *)
Definition service_ack (n : nat) : CmdState := st8 3 3 1 kNoError.

(** A full ring (put 5, get 6) whose token counter is about to wrap. *)
Definition wrap_full : World := ring8 false 0 2147483647 5 5 (st8 6 5 7 kNoError).

(** ** Frame lemmas *)

Lemma frame_refl w : frame w w.
Proof. repeat split; exists []; rewrite app_nil_r; reflexivity. Qed.

Lemma frame_trans w1 w2 w3 : frame w1 w2 -> frame w2 w3 -> frame w1 w3.
Proof.
  intros (H1 & H2 & H3 & H4 & H5 & e1 & H6) (G1 & G2 & G3 & G4 & G5 & e2 & G6).
  repeat split; try congruence.
  exists (e1 ++ e2). rewrite G6, H6, app_assoc. reflexivity.
Qed.

Lemma Calc_set wc w :
  exists x, CalcImmediateEntries wc w = set_immediate_entry_count x w.
Proof.
  unfold CalcImmediateEntries.
  destruct (negb (usable w) || negb (HaveRingBuffer w)); [eexists; reflexivity|].
  destruct (flush_automatically_ w); [|eexists; reflexivity].
  destruct (_ && _); eexists; reflexivity.
Qed.

Ltac calc_out :=
  repeat match goal with
  | |- context [CalcImmediateEntries ?c ?w] =>
      let x := fresh "x" in let E := fresh "E" in
      destruct (Calc_set c w) as [x E]; rewrite E; clear E
  end.

Lemma frame_set_immediate x w : frame w (set_immediate_entry_count x w).
Proof. repeat split; exists []; simpl; rewrite app_nil_r; reflexivity. Qed.

Lemma frame_Calc wc w : frame w (CalcImmediateEntries wc w).
Proof. calc_out. apply frame_set_immediate. Qed.

Ltac zcase :=
  repeat match goal with
  | |- context [?a <? ?b] => destruct (Z.ltb_spec a b)
  | |- context [?a <=? ?b] => destruct (Z.leb_spec a b)
  | |- context [?a =? ?b] => destruct (Z.eqb_spec a b)
  | _ : context [?a <? ?b] |- _ => destruct (Z.ltb_spec a b)
  | _ : context [?a <=? ?b] |- _ => destruct (Z.leb_spec a b)
  | _ : context [?a =? ?b] |- _ => destruct (Z.eqb_spec a b)
  end.

Create HintDb frame.
#[local] Hint Resolve frame_refl frame_Calc : frame.

Section Proofs.
Variable service : nat -> CmdState.
Variable create_transfer_id : Z -> Z.
Variable clock : nat -> Z.

Lemma FlushSync_unusable w :
  usable w = false -> FlushSync service clock w = (false, w).
Proof. unfold FlushSync. intros ->. reflexivity. Qed.

Lemma FlushSync_usable w ok w' :
  usable w = true -> FlushSync service clock w = (ok, w') ->
  frame w w' /\
  put_ w' = (if put_ w =? total_entry_count_ w then 0 else put_ w) /\
  last_state w' = service (nsync w) /\
  trace w' = trace w ++ [EFlushSync (put_ w') (get_offset (wrap_put w)) (last_state w')] /\
  ok = (error_s (last_state w') =? kNoError).
Proof.
  unfold FlushSync, chan_FlushSync, usable. intros Hu. rewrite Hu. simpl.
  calc_out. intros H; inversion H; subst; clear H.
  unfold wrap_put. destruct (put_ w =? total_entry_count_ w);
  repeat split; simpl; auto; eexists; reflexivity.
Qed.

Lemma frame_FlushSync w : frame w (snd (FlushSync service clock w)).
Proof.
  destruct (usable w) eqn:Hu.
  - destruct (FlushSync service clock w) as [ok w'] eqn:E.
    apply (FlushSync_usable w ok w' Hu E).
  - rewrite FlushSync_unusable by exact Hu. apply frame_refl.
Qed.

Lemma Flush_cases w :
  let w0 := wrap_put w in
  (usable w = true -> last_put_sent_ w <> put_ w0 ->
     exists x, Flush clock w =
       set_immediate_entry_count x
         (set_flush_generation (Z.land (flush_generation_ w0 + 1) 4294967295)
           (log (EFlush (put_ w0))
             (set_last_put_sent (put_ w0)
               (set_last_flush_time (clock (length (trace w0))) w0))))) /\
  (usable w = false \/ last_put_sent_ w = put_ w0 -> Flush clock w = w0).
Proof.
  intros w0. unfold Flush. fold w0.
  assert (Hu : usable w0 = usable w) by (unfold w0, wrap_put; destruct (_ =? _); reflexivity).
  assert (Hl : last_put_sent_ w0 = last_put_sent_ w)
    by (unfold w0, wrap_put; destruct (_ =? _); reflexivity).
  rewrite Hu, Hl. split.
  - intros H1 H2. rewrite H1. apply Z.eqb_neq in H2. rewrite H2. simpl.
    calc_out. eexists. reflexivity.
  - intros [H|H]; rewrite H; [reflexivity|]. rewrite Z.eqb_refl. simpl.
    destruct (usable w); reflexivity.
Qed.

Lemma frame_wrap_put w : frame w (wrap_put w).
Proof. unfold wrap_put. destruct (_ =? _); [|apply frame_refl]. repeat split; exists []; simpl; rewrite app_nil_r; reflexivity. Qed.

Lemma frame_Flush w : frame w (Flush clock w).
Proof.
  destruct (Flush_cases w) as [H1 H2].
  destruct (usable w) eqn:Hu; [|rewrite H2 by auto; apply frame_wrap_put].
  destruct (Z.eq_dec (last_put_sent_ w) (put_ (wrap_put w))) as [e|n].
  - rewrite H2 by auto. apply frame_wrap_put.
  - destruct (H1 eq_refl n) as [x ->].
    eapply frame_trans; [apply frame_wrap_put|].
    repeat split; simpl; auto. eexists; reflexivity.
Qed.

End Proofs.

(** ** Offset tracker and flow controller *)

(** C1 (amended): with the helper usable and the ring allocated,
    CalcImmediateEntries sets the writable count to the spec's formula
    ([get - put - 1] if [get > put], else [capacity - put], minus one when
    [get = 0]) when automatic flushing is disabled; with automatic flushing
    enabled the count is 0 (forced flush) or at most that formula. *)
Theorem CalcImmediateEntries_writable wc w :
  usable w = true -> HaveRingBuffer w = true ->
  (flush_automatically_ w = false ->
     immediate_entry_count_ (CalcImmediateEntries wc w) = spec_writable w) /\
  (flush_automatically_ w = true ->
     immediate_entry_count_ (CalcImmediateEntries wc w) = 0 \/
     immediate_entry_count_ (CalcImmediateEntries wc w) <= spec_writable w).
Proof.
  intros Hu Hr. unfold CalcImmediateEntries, spec_writable. rewrite Hu, Hr. simpl.
  split; intros Ha; rewrite Ha; simpl; [reflexivity|].
  destruct (_ && _); simpl; [left; reflexivity|right].
  match goal with |- (if ?a >? ?b then _ else _) <= _ =>
    destruct (a >? b) eqn:E end; [apply Z.gtb_lt in E|]; lia.
Qed.

(** C1 witness: Scenario A with automatic flushing disabled gives 5. *)
Lemma CalcImmediateEntries_writable_witness :
  usable (scenarioA false) = true /\ HaveRingBuffer (scenarioA false) = true /\
  immediate_entry_count_ (CalcImmediateEntries 0 (scenarioA false)) = 5.
Proof.
  split; [reflexivity|split; [reflexivity|]].
  rewrite (proj1 (CalcImmediateEntries_writable 0 (scenarioA false) eq_refl eq_refl) eq_refl).
  reflexivity.
Defined.

(** C1 counterexample: in Scenario A (capacity 8, put 3, get 3 after the
    flush) the writable count is 0 with automatic flushing (the default) and
    5 without it; it is 4 in neither case. *)
Lemma scenarioA_writable :
  immediate_entry_count_ (CalcImmediateEntries 0 (scenarioA true)) = 0 /\
  immediate_entry_count_ (CalcImmediateEntries 0 (scenarioA false)) = 5.
Proof. split; reflexivity. Qed.

(** C6 (amended): with automatic flushing enabled, pending is
    [(put + capacity - last_put_sent) mod capacity] and the limit is
    [capacity / 16] (kAutoFlushSmall) when [get = last_put_sent] and
    [capacity / 2] (kAutoFlushBig) otherwise; the writable count is forced to 0
    once [0 < pending] and [pending >= limit], and is otherwise capped at
    [max(limit - pending, waiting_count)].  The caught-up divisor is the
    larger one, so its threshold is the lower one. *)
Theorem CalcImmediateEntries_auto_flush wc w :
  usable w = true -> HaveRingBuffer w = true -> flush_automatically_ w = true ->
  0 < total_entry_count_ w -> 0 <= put_ w ->
  0 <= last_put_sent_ w <= total_entry_count_ w ->
  let pending :=
    (put_ w + total_entry_count_ w - last_put_sent_ w) mod total_entry_count_ w in
  let limit := auto_flush_limit w in
  immediate_entry_count_ (CalcImmediateEntries wc w) =
    (if (0 <? pending) && (limit <=? pending) then 0
     else Z.min (spec_writable w) (Z.max (limit - pending) wc)) /\
  kAutoFlushBig < kAutoFlushSmall /\
  Z.quot (total_entry_count_ w) kAutoFlushSmall <=
  Z.quot (total_entry_count_ w) kAutoFlushBig.
Proof.
  intros Hu Hr Ha Ht Hp Hl pending limit.
  split; [|split; [reflexivity|]].
  - unfold CalcImmediateEntries, spec_writable. rewrite Hu, Hr, Ha. simpl.
    rewrite Z.rem_mod_nonneg by lia. fold pending.
    unfold limit, auto_flush_limit. rewrite Z.gtb_ltb, Z.geb_leb.
    destruct (_ && _); simpl; [reflexivity|].
    rewrite ?Z.gtb_ltb. zcase; lia.
  - rewrite !Z.quot_div_nonneg by (unfold kAutoFlushSmall, kAutoFlushBig; lia).
    apply Z.div_le_compat_l; unfold kAutoFlushSmall, kAutoFlushBig; lia.
Qed.

(** C6 witness: a 64-entry ring whose service has caught up
    ([get = last_put_sent = 0]) with 4 entries pending: the limit 64/16 = 4 is
    reached and the writable count is forced to 0. *)
Lemma CalcImmediateEntries_auto_flush_witness :
  immediate_entry_count_ (CalcImmediateEntries 0 (ring64 0)) = 0.
Proof.
  destruct (CalcImmediateEntries_auto_flush 0 (ring64 0)) as [-> _];
    [reflexivity|reflexivity|reflexivity|vm_compute; reflexivity
    |vm_compute; discriminate|split; vm_compute; discriminate|].
  reflexivity.
Defined.

(** C6 counterexample: the divisor used when the service has caught up is
    kAutoFlushSmall = 16, the larger one, not the smaller: with 4 entries
    pending in a 64-entry ring the caught-up helper (get 0 = last_put_sent)
    forces a flush (limit 4) while the busy one (get 60) still reports 28
    writable entries (limit 32). *)
Lemma auto_flush_divisor_caught_up :
  kAutoFlushBig < kAutoFlushSmall /\
  auto_flush_limit (ring64 0) = 4 /\ auto_flush_limit (ring64 60) = 32 /\
  immediate_entry_count_ (CalcImmediateEntries 0 (ring64 0)) = 0 /\
  immediate_entry_count_ (CalcImmediateEntries 0 (ring64 60)) = 28.
Proof. repeat split; reflexivity. Qed.

(** ** Token synchronizer: WaitForToken *)

(** C5: waiting for a token above the most recently issued one returns at
    once, with the world (helper state and channel trace) unchanged. *)
Theorem WaitForToken_stale service clock fuel token w :
  token_ w < token ->
  WaitForToken service clock fuel token w = Some (WaitReturned, w).
Proof.
  intros H. unfold WaitForToken.
  destruct (negb (usable w) || negb (HaveRingBuffer w)); [reflexivity|].
  destruct (token <? 0); [reflexivity|].
  replace (token >? token_ w) with true by (symmetry; apply Z.gtb_lt; lia).
  reflexivity.
Qed.

(** C5 witness: Scenario D, highest issued token 3, WaitForToken(5). *)
Lemma WaitForToken_stale_witness :
  token_ (ring8 true 0 3 3 3 (st8 3 3 1 kNoError)) < 5 /\
  WaitForToken service_drain clock0 0 5 (ring8 true 0 3 3 3 (st8 3 3 1 kNoError))
  = Some (WaitReturned, ring8 true 0 3 3 3 (st8 3 3 1 kNoError)).
Proof. split; [reflexivity|]. apply WaitForToken_stale. reflexivity. Defined.

(** C4: while WaitForToken(token) is still waiting (the acknowledged token is
    below [token]) and the ring is observed empty ([get = put]), the loop
    ends at once with the fatal outcome, without a further FlushSync; in
    particular so does the call itself when this holds on entry. *)
Theorem WaitForToken_fatal_on_empty service clock fuel token w :
  last_token_read w < token -> get_offset w = put_ w ->
  wait_token_loop service clock (S fuel) token w = Some (WaitFatal, w) /\
  (usable w = true -> HaveRingBuffer w = true -> 0 <= token <= token_ w ->
   WaitForToken service clock (S fuel) token w = Some (WaitFatal, w)).
Proof.
  intros Hl He.
  assert (L : wait_token_loop service clock (S fuel) token w = Some (WaitFatal, w)).
  { simpl. replace (last_token_read w <? token) with true by (symmetry; apply Z.ltb_lt; lia).
    rewrite He, Z.eqb_refl. reflexivity. }
  split; [exact L|]. intros Hu Hr Ht.
  unfold WaitForToken. rewrite Hu, Hr. simpl.
  replace (token <? 0) with false by (symmetry; apply Z.ltb_ge; lia).
  replace (token >? token_ w) with false by (symmetry; rewrite Z.gtb_ltb; apply Z.ltb_ge; lia).
  exact L.
Qed.

(** C4 witness: Scenario C, token 1 issued, service still at token 0, ring
    empty (put = get = 3): WaitForToken(1) ends fatally. *)
Lemma WaitForToken_fatal_on_empty_witness :
  WaitForToken service_drain clock0 1 1 (ring8 true 0 1 3 3 (st8 3 3 0 kNoError))
  = Some (WaitFatal, ring8 true 0 1 3 3 (st8 3 3 0 kNoError)).
Proof.
  apply (WaitForToken_fatal_on_empty service_drain clock0 O 1
           (ring8 true 0 1 3 3 (st8 3 3 0 kNoError)));
    [reflexivity|reflexivity|reflexivity|reflexivity|split; discriminate].
Defined.

(** ** Flush *)

(** C9 (amended): with no unsent work ([last_put_sent = put] once put is
    wrapped from [capacity] to 0), Flush only wraps put: no channel call and
    no other change.  When the helper is usable and there is unsent work, it
    sends the wrapped put to the channel asynchronously (no synchronous
    query), records it as last_put_sent and stamps the send time.  An
    unusable helper never calls the channel in Flush, whatever its unsent
    work: Flush only wraps put. *)
Theorem Flush_elision clock w :
  let w0 := wrap_put w in
  (last_put_sent_ w = put_ w0 -> Flush clock w = w0) /\
  (usable w = true -> last_put_sent_ w <> put_ w0 ->
   let w' := Flush clock w in
   trace w' = trace w ++ [EFlush (put_ w0)] /\ put_ w' = put_ w0 /\
   last_put_sent_ w' = put_ w0 /\ last_flush_time_ w' = clock (length (trace w)) /\
   nsync w' = nsync w /\ last_state w' = last_state w) /\
  (usable w = false -> Flush clock w = w0).
Proof.
  intros w0. destruct (Flush_cases clock w) as [H1 H2]. fold w0 in H1, H2.
  assert (Ht : trace w0 = trace w) by (unfold w0, wrap_put; destruct (_ =? _); reflexivity).
  assert (Hs : nsync w0 = nsync w /\ last_state w0 = last_state w)
    by (unfold w0, wrap_put; destruct (_ =? _); split; reflexivity).
  split; [intros H; apply H2; right; exact H|].
  split; [|intros H; apply H2; left; exact H].
  intros Hu Hn w'. destruct (H1 Hu Hn) as [x Hx]. unfold w'. rewrite Hx. simpl.
  rewrite Ht. destruct Hs as [Hs1 Hs2]. repeat split; assumption.
Qed.

(** C9 witness: with 3 unsent entries the usable helper sends put 3; with
    everything sent (Scenario A) Flush changes nothing; the same helper made
    unusable sends nothing although put 3 is unsent. *)
Lemma Flush_elision_witness :
  trace (Flush clock0 (ring8 false 0 0 3 0 (st8 0 0 0 kNoError))) = [EFlush 3] /\
  Flush clock0 (scenarioA true) = scenarioA true /\
  Flush clock0 (set_usable false (ring8 false 0 0 3 0 (st8 0 0 0 kNoError))) =
    set_usable false (ring8 false 0 0 3 0 (st8 0 0 0 kNoError)).
Proof.
  split; [|split].
  - apply (proj1 (proj2 (Flush_elision clock0 (ring8 false 0 0 3 0 (st8 0 0 0 kNoError)))));
      [reflexivity|discriminate].
  - apply (proj1 (Flush_elision clock0 (scenarioA true))). reflexivity.
  - apply (proj2 (proj2 (Flush_elision clock0
             (set_usable false (ring8 false 0 0 3 0 (st8 0 0 0 kNoError)))))).
    reflexivity.
Defined.

(** C9 counterexample: an unusable helper with unsent work (put 3, last
    sent 0) makes no channel call on Flush. *)
Lemma Flush_unusable_no_send :
  let w := set_usable false (ring8 false 0 0 3 0 (st8 0 0 0 kNoError)) in
  last_put_sent_ w <> put_ w /\ Flush clock0 w = w /\ trace (Flush clock0 w) = [].
Proof. split; [discriminate|split; reflexivity]. Qed.

(** ** Loop lemmas *)

Lemma frame_set_put x w : frame w (set_put x w).
Proof. repeat split; exists []; simpl; rewrite app_nil_r; reflexivity. Qed.

Lemma frame_log e w : frame w (log e w).
Proof. repeat split; exists [e]; reflexivity. Qed.

Lemma frame_usable w w' : frame w w' -> usable w' = usable w.
Proof. intros [H _]. exact H. Qed.

Lemma frame_ring w w' : frame w w' -> HaveRingBuffer w' = HaveRingBuffer w.
Proof. intros (_ & H & _). unfold HaveRingBuffer. rewrite H. reflexivity. Qed.

Lemma frame_token w w' : frame w w' -> token_ w' = token_ w.
Proof. intros (_ & _ & _ & H & _). exact H. Qed.

Section Loops.
Variable service : nat -> CmdState.
Variable create_transfer_id : Z -> Z.
Variable clock : nat -> Z.

Lemma FlushSync_fail w ok w' :
  usable w = true -> FlushSync service clock w = (ok, w') -> ok = false ->
  error_s (last_state w') <> kNoError.
Proof.
  intros Hu F Hok. destruct (FlushSync_usable service clock w ok w' Hu F) as (_ & _ & _ & _ & E).
  subst ok. intros C. rewrite C in E. discriminate.
Qed.

Lemma wrap_wait_frame fuel w ok w1 :
  usable w = true -> wrap_wait service clock fuel w = Some (ok, w1) ->
  frame w w1 /\
  (exists evs, trace w1 = trace w ++ evs /\ Forall (fun e => is_flush_sync e = true) evs) /\
  (ok = false -> error_s (last_state w1) <> kNoError).
Proof.
  revert w. induction fuel as [|f IH]; intros w Hu H; [discriminate|].
  simpl in H. destruct (_ || _).
  - destruct (FlushSync service clock w) as [ok' w2] eqn:F.
    pose proof (FlushSync_usable service clock w ok' w2 Hu F) as (Fr & _ & _ & Ht & _).
    destruct ok' eqn:Eok; simpl in H.
    + rewrite <- (frame_usable _ _ Fr) in Hu.
      destruct (IH w2 Hu H) as (Fr2 & (evs & T & Fa) & He).
      split; [eapply frame_trans; eauto|]. split; [|exact He].
      eexists. rewrite T, Ht, <- app_assoc. split; [reflexivity|constructor; auto].
    + inversion H; subst. split; [exact Fr|]. split.
      * eexists. split; [exact Ht|]. repeat constructor.
      * intros _. exact (FlushSync_fail w false w1 Hu F eq_refl).
  - inversion H; subst. split; [apply frame_refl|]. split; [|discriminate].
    exists []. rewrite app_nil_r. split; [reflexivity|constructor].
Qed.

(** The wrap wait ends normally only once [0 < get <= put], with put as on
    entry (a FlushSync that wrapped put to 0 could never satisfy the exit). *)
Lemma wrap_wait_exit fuel w w1 :
  (forall n, 0 <= get_offset_s (service n)) -> 0 <= get_offset w ->
  usable w = true -> wrap_wait service clock fuel w = Some (true, w1) ->
  0 < get_offset w1 <= put_ w1 /\ put_ w1 = put_ w.
Proof.
  intros Hs. revert w. induction fuel as [|f IH]; intros w Hg Hu H; [discriminate|].
  simpl in H. destruct (_ || _) eqn:C.
  - destruct (FlushSync service clock w) as [ok' w2] eqn:F.
    pose proof (FlushSync_usable service clock w ok' w2 Hu F) as (Fr & Hp & Hst & _ & _).
    destruct ok'; simpl in H; [|discriminate].
    assert (Hg2 : 0 <= get_offset w2) by (unfold get_offset; rewrite Hst; apply Hs).
    rewrite <- (frame_usable _ _ Fr) in Hu.
    destruct (IH w2 Hg2 Hu H) as [[Ha Hb] Hc].
    split; [lia|]. rewrite Hc, Hp. destruct (Z.eqb_spec (put_ w) (total_entry_count_ w)); lia.
  - inversion H; subst. apply orb_false_iff in C as [C1 C2].
    rewrite Z.gtb_ltb in C1. apply Z.ltb_ge in C1. apply Z.eqb_neq in C2. lia.
Qed.

Lemma pad_tail_fuel_enough fuel n w :
  0 <= n -> (Z.to_nat n <= fuel)%nat ->
  frame w (pad_tail_fuel fuel n w) /\
  put_ (pad_tail_fuel fuel n w) = put_ w + n /\
  last_state (pad_tail_fuel fuel n w) = last_state w /\
  exists evs, trace (pad_tail_fuel fuel n w) = trace w ++ evs /\
              noop_cover (put_ w) (put_ w + n) evs.
Proof.
  revert n w. induction fuel as [|f IH]; intros n w Hn Hf.
  - assert (n = 0) by lia. subst n. simpl.
    split; [apply frame_refl|]. split; [lia|]. split; [reflexivity|].
    exists []. rewrite app_nil_r. simpl. split; [reflexivity|lia].
  - simpl. destruct (Z.gtb_spec n 0) as [Hp|Hp].
    + set (k := Z.min kMaxSize n).
      assert (Hk : 0 < k <= n) by (unfold k, kMaxSize; lia).
      set (w2 := set_put (put_ w + k) (log (ENoop (put_ w) k) w)).
      destruct (IH (n - k) w2 ltac:(lia) ltac:(lia)) as (Fr & Hput & Hst & evs & T & Cv).
      split; [eapply frame_trans; [|exact Fr]; eapply frame_trans; [apply frame_log|apply frame_set_put]|].
      split; [rewrite Hput; simpl; lia|]. split; [exact Hst|].
      exists (ENoop (put_ w) k :: evs). split.
      * rewrite T. simpl. rewrite <- app_assoc. reflexivity.
      * simpl. split; [reflexivity|]. split; [lia|].
        replace (put_ w + n) with (put_ w2 + (n - k)) by (simpl; lia). exact Cv.
    + assert (n = 0) by lia. subst n.
      split; [apply frame_refl|]. split; [lia|]. split; [reflexivity|].
      exists []. rewrite app_nil_r. simpl. split; [reflexivity|lia].
Qed.

Lemma frame_pad fuel n w : frame w (pad_tail_fuel fuel n w).
Proof.
  revert n w. induction fuel as [|f IH]; intros n w; simpl; [apply frame_refl|].
  destruct (n >? 0); [|apply frame_refl].
  eapply frame_trans; [|apply IH].
  eapply frame_trans; [apply frame_log|apply frame_set_put].
Qed.

Lemma space_wait_spec fuel count w w' :
  usable w = true -> space_wait service clock fuel count w = Some w' ->
  frame w w' /\ (count <= immediate_entry_count_ w' \/ error_s (last_state w') <> kNoError).
Proof.
  revert w. induction fuel as [|f IH]; intros w Hu H; [discriminate|].
  simpl in H. destruct (Z.ltb_spec (immediate_entry_count_ w) count).
  - destruct (FlushSync service clock w) as [ok w2] eqn:F.
    pose proof (FlushSync_usable service clock w ok w2 Hu F) as (Fr & _).
    destruct ok eqn:Eok; simpl in H.
    + assert (Hu2 : usable (CalcImmediateEntries count w2) = true)
        by (rewrite (frame_usable _ _ (frame_Calc count w2)), (frame_usable _ _ Fr); exact Hu).
      destruct (IH _ Hu2 H) as [Fr2 R]. split; [|exact R].
      eapply frame_trans; [exact Fr|]. eapply frame_trans; [apply frame_Calc|exact Fr2].
    + inversion H; subst. split; [exact Fr|]. right. exact (FlushSync_fail w false w' Hu F eq_refl).
  - inversion H; subst. split; [apply frame_refl|left; lia].
Qed.

Lemma space_phase_spec fuel count w w' :
  usable w = true -> space_phase service clock fuel count w = Some w' ->
  frame w w' /\ (count <= immediate_entry_count_ w' \/ error_s (last_state w') <> kNoError).
Proof.
  intros Hu H. unfold space_phase in H.
  destruct (Z.ltb_spec (immediate_entry_count_ (CalcImmediateEntries count w)) count).
  - set (w2 := CalcImmediateEntries count (Flush clock (CalcImmediateEntries count w))) in H.
    assert (Fr : frame w w2)
      by (unfold w2; eapply frame_trans; [apply frame_Calc|];
          eapply frame_trans; [apply frame_Flush|apply frame_Calc]).
    destruct (Z.ltb_spec (immediate_entry_count_ w2) count).
    + rewrite <- (frame_usable _ _ Fr) in Hu. destruct (space_wait_spec fuel count w2 w' Hu H) as [F2 R].
      split; [eapply frame_trans; eauto|exact R].
    + inversion H; subst. split; [exact Fr|left; lia].
  - inversion H; subst. split; [apply frame_Calc|left; lia].
Qed.

End Loops.

Section Ops.
Variable service : nat -> CmdState.
Variable create_transfer_id : Z -> Z.
Variable clock : nat -> Z.


Lemma Alloc_ready w :
  usable w = true -> HaveRingBuffer w = true ->
  AllocateRingBuffer service create_transfer_id w = (true, w).
Proof. unfold AllocateRingBuffer. intros -> ->. reflexivity. Qed.

(** AllocateRingBuffer keeps the token, never makes the helper usable, and
    leaves a usable helper with a ring. *)
Lemma Alloc_result w b w' :
  AllocateRingBuffer service create_transfer_id w = (b, w') ->
  token_ w' = token_ w /\
  (usable w' = true -> usable w = true /\ HaveRingBuffer w' = true) /\
  (usable w = true -> HaveRingBuffer w = true -> w' = w).
Proof.
  unfold AllocateRingBuffer, usable, chan_GetState, ClearUsable.
  destruct (usable_ w) eqn:Hu; simpl.
  2:{ intros H; inversion H; subst. split; [reflexivity|]. split; intros; congruence. }
  destruct (HaveRingBuffer w) eqn:Hr; simpl.
  { intros H; inversion H; subst. split; [reflexivity|]. split; [intros _; split; auto|auto]. }
  destruct (create_transfer_id (ring_buffer_size_ w) <? 0) eqn:Hid; simpl.
  - intros H; inversion H; subst. calc_out. simpl.
    split; [reflexivity|]. split; intros; congruence.
  - destruct (_ >? _); intros H; inversion H; subst; calc_out; simpl.
    + split; [reflexivity|]. split; intros; congruence.
    + split; [reflexivity|]. split; [|intros; congruence]. intros _. split; [reflexivity|].
      unfold HaveRingBuffer. simpl. apply Z.ltb_ge in Hid.
      destruct (Z.eqb_spec (create_transfer_id (ring_buffer_size_ w)) (-1)); [lia|reflexivity].
Qed.

Lemma wrap_phase_spec fuel count w ok w' :
  usable w = true -> wrap_phase service clock fuel count w = Some (ok, w') ->
  frame w w' /\ (ok = false -> error_s (last_state w') <> kNoError).
Proof.
  intros Hu H. unfold wrap_phase in H.
  destruct (_ >? _); [|inversion H; subst; split; [apply frame_refl|discriminate]].
  destruct (wrap_wait service clock fuel w) as [[[] w1]|] eqn:E; try discriminate.
  - inversion H; subst. destruct (wrap_wait_frame service clock fuel w true w1 Hu E) as (Fr & _).
    split; [|discriminate].
    eapply frame_trans; [exact Fr|]. eapply frame_trans; [|apply frame_set_put].
    apply frame_pad.
  - inversion H; subst. destruct (wrap_wait_frame service clock fuel w false w' Hu E) as (Fr & _ & He).
    split; [exact Fr|exact He].
Qed.

Lemma WaitForAvailableEntries_ready fuel count w w' :
  usable w = true -> HaveRingBuffer w = true ->
  WaitForAvailableEntries service create_transfer_id clock fuel count w = Some w' ->
  frame w w' /\ (count <= immediate_entry_count_ w' \/ error_s (last_state w') <> kNoError).
Proof.
  intros Hu Hr H. unfold WaitForAvailableEntries in H. rewrite Alloc_ready in H by assumption.
  rewrite Hu in H. simpl in H.
  destruct (wrap_phase service clock fuel count w) as [[[] w1]|] eqn:E; try discriminate;
    destruct (wrap_phase_spec fuel count w _ w1 Hu E) as [Fr He].
  - rewrite <- (frame_usable _ _ Fr) in Hu.
    destruct (space_phase_spec service clock fuel count w1 w' Hu H) as [F2 R].
    split; [eapply frame_trans; eauto|exact R].
  - inversion H; subst. split; [exact Fr|right; apply He; reflexivity].
Qed.

Lemma GetSpace_ready fuel n w o w' :
  usable w = true -> HaveRingBuffer w = true ->
  GetSpace service create_transfer_id clock fuel n w = Some (o, w') ->
  frame w w' /\ (o = None -> error_s (last_state w') <> kNoError).
Proof.
  intros Hu Hr H. unfold GetSpace in H.
  destruct (Z.gtb_spec n (immediate_entry_count_ w)).
  - destruct (WaitForAvailableEntries service create_transfer_id clock fuel n w) as [w2|] eqn:E;
      [|discriminate].
    destruct (WaitForAvailableEntries_ready fuel n w w2 Hu Hr E) as [Fr R].
    destruct (Z.gtb_spec n (immediate_entry_count_ w2)).
    + inversion H; subst. split; [exact Fr|]. intros _. destruct R; [lia|assumption].
    + inversion H; subst. split; [|discriminate].
      eapply frame_trans; [exact Fr|].
      eapply frame_trans; [apply frame_set_put|apply frame_set_immediate].
    - destruct (Z.gtb_spec n (immediate_entry_count_ w)); [lia|].
      inversion H; subst. split; [|discriminate].
      eapply frame_trans; [apply frame_set_put|apply frame_set_immediate].
Qed.

Lemma finish_loop_spec fuel w b w' :
  usable w = true -> finish_loop service clock fuel w = Some (b, w') ->
  frame w w' /\
  exists evs, trace w' = trace w ++ evs /\
    (b = true -> put_ w' = get_offset w' /\
                 Forall (fun e => is_flush_sync e && flush_sync_ok e = true) evs) /\
    (b = false -> error_s (last_state w') <> kNoError /\
       exists oks e, evs = oks ++ [e] /\
         Forall (fun e => is_flush_sync e && flush_sync_ok e = true) oks /\
         is_flush_sync e = true /\ flush_sync_ok e = false).
Proof.
  revert w. induction fuel as [|f IH]; intros w Hu H; [discriminate|].
  simpl in H. destruct (FlushSync service clock w) as [ok w2] eqn:F.
  pose proof (FlushSync_usable service clock w ok w2 Hu F) as (Fr & _ & _ & Ht & Hok).
  set (e := EFlushSync (put_ w2) (get_offset (wrap_put w)) (last_state w2)) in Ht.
  assert (He : flush_sync_ok e = ok) by (unfold e; simpl; symmetry; exact Hok).
  destruct ok; simpl in H.
  - destruct (Z.eqb_spec (put_ w2) (get_offset w2)) as [Eq|Ne]; simpl in H.
    + inversion H; subst. split; [exact Fr|]. exists [e]. split; [exact Ht|].
      split; [intros _; split; [exact Eq|repeat constructor; rewrite He; reflexivity]|discriminate].
    + rewrite <- (frame_usable _ _ Fr) in Hu.
      destruct (IH w2 Hu H) as (Fr2 & evs & T & Tb & Fb).
      split; [eapply frame_trans; eauto|]. exists (e :: evs).
      split; [rewrite T, Ht, <- app_assoc; reflexivity|]. split.
      * intros Hb. destruct (Tb Hb) as [P A]. split; [exact P|constructor; [rewrite He; reflexivity|exact A]].
      * intros Hb. destruct (Fb Hb) as (Er & oks & e' & Ev & A & S1 & S2).
        split; [exact Er|]. exists (e :: oks), e'. rewrite Ev.
        split; [reflexivity|]. split; [constructor; [rewrite He; reflexivity|exact A]|auto].
  - inversion H; subst. split; [exact Fr|]. exists [e]. split; [exact Ht|].
    split; [discriminate|]. intros _.
    split; [exact (FlushSync_fail service clock w false w' Hu F eq_refl)|].
    exists [], e. split; [reflexivity|]. split; [constructor|]. split; [reflexivity|exact He].
Qed.

Lemma Finish_frame fuel w b w' :
  Finish service clock fuel w = Some (b, w') -> frame w w'.
Proof.
  unfold Finish. destruct (usable w) eqn:Hu; simpl.
  - destruct (put_ w =? get_offset w).
    + intros H; inversion H; subst; apply frame_refl.
    + intros H. exact (proj1 (finish_loop_spec fuel w b w' Hu H)).
  - intros H; inversion H; subst; apply frame_refl.
Qed.

Lemma wait_token_loop_frame fuel t w o w' :
  wait_token_loop service clock fuel t w = Some (o, w') -> frame w w'.
Proof.
  revert w. induction fuel as [|f IH]; intros w H; [discriminate|].
  simpl in H. destruct (_ <? _); [|inversion H; subst; apply frame_refl].
  destruct (_ =? _); [inversion H; subst; apply frame_refl|].
  destruct (FlushSync service clock w) as [ok w2] eqn:F.
  assert (Fr : frame w w2) by (pose proof (frame_FlushSync service clock w) as G; rewrite F in G; exact G).
  destruct ok; simpl in H; [eapply frame_trans; [exact Fr|exact (IH _ H)]|].
  inversion H; subst. exact Fr.
Qed.

End Ops.

(** ** Flow controller: wrap-around *)

(** C2: when a request does not fit before the physical end
    ([put + count > capacity]), WaitForAvailableEntries first runs the wrap
    wait, which only issues FlushSync calls.  If a FlushSync fails it returns
    with no no-op written.  Otherwise the wait has ended with the observed get
    in [(0, put]], i.e. the service has wrapped past put; only then are no-op
    records written, filling [put, capacity) contiguously, and put is set to
    0 before the search for space.  (Service replies are offsets, so
    non-negative.) *)
Theorem WaitForAvailableEntries_wrap_safety service create_transfer_id clock fuel count w w' :
  (forall n, 0 <= get_offset_s (service n)) -> 0 <= get_offset w ->
  usable w = true -> HaveRingBuffer w = true ->
  put_ w <= total_entry_count_ w -> total_entry_count_ w < put_ w + count ->
  WaitForAvailableEntries service create_transfer_id clock fuel count w = Some w' ->
  exists ok w1 waits,
    wrap_wait service clock fuel w = Some (ok, w1) /\
    trace w1 = trace w ++ waits /\ Forall (fun e => is_flush_sync e = true) waits /\
    if ok then
      0 < get_offset w1 <= put_ w /\
      exists pads w2,
        trace w2 = trace w1 ++ pads /\ noop_cover (put_ w) (total_entry_count_ w) pads /\
        put_ w2 = 0 /\ last_state w2 = last_state w1 /\
        space_phase service clock fuel count w2 = Some w'
    else w' = w1.
Proof.
  intros Hs Hg Hu Hr Hle Hlt H.
  unfold WaitForAvailableEntries in H.
  rewrite (Alloc_ready service create_transfer_id w Hu Hr) in H. rewrite Hu in H.
  unfold wrap_phase in H.
  replace (put_ w + count >? total_entry_count_ w) with true in H
    by (symmetry; apply Z.gtb_lt; lia).
  destruct (wrap_wait service clock fuel w) as [[ok w1]|] eqn:E; [|discriminate].
  destruct (wrap_wait_frame service clock fuel w ok w1 Hu E) as (Fr & (waits & T & Fa) & _).
  exists ok, w1, waits. split; [reflexivity|]. split; [exact T|]. split; [exact Fa|].
  destruct ok.
  - destruct (wrap_wait_exit service clock fuel w w1 Hs Hg Hu E) as [Hget Hput].
    split; [lia|].
    destruct Fr as (_ & _ & Htot & _).
    destruct (pad_tail_fuel_enough (Z.to_nat (total_entry_count_ w1 - put_ w1))
                (total_entry_count_ w1 - put_ w1) w1 ltac:(lia) ltac:(lia))
      as (_ & _ & Hst & pads & Tp & Cv).
    exists pads, (set_put 0 (pad_tail (total_entry_count_ w1 - put_ w1) w1)).
    unfold pad_tail. split; [exact Tp|]. split.
    + rewrite Hput, Htot in Cv.
      replace (put_ w + (total_entry_count_ w - put_ w)) with (total_entry_count_ w) in Cv by lia.
      exact Cv.
    + split; [reflexivity|]. split; [exact Hst|]. exact H.
  - inversion H. reflexivity.
Qed.

(** C2 witness: Scenario B.  put 6 of 8 and 4 entries requested; the service
    first reports get 0 (not yet wrapped), so the helper flushes again; at
    get 5 it pads offsets 6-7 with no-ops and restarts at put 0. *)
Lemma WaitForAvailableEntries_wrap_safety_witness :
  exists w1, wrap_wait serviceB clock0 10 scenarioB = Some (true, w1) /\
             0 < get_offset w1 <= 6 /\ length (trace w1) = 2%nat.
Proof.
  destruct (WaitForAvailableEntries serviceB (fun _ => 1) clock0 10 4 scenarioB) as [w'|] eqn:E;
    [|vm_compute in E; discriminate].
  destruct (WaitForAvailableEntries_wrap_safety serviceB (fun _ => 1) clock0 10 4 scenarioB w'
              ltac:(intros [|n]; vm_compute; discriminate) ltac:(vm_compute; discriminate)
              eq_refl eq_refl ltac:(vm_compute; discriminate) ltac:(vm_compute; reflexivity) E)
    as (ok & w1 & waits & Hw & _ & _ & Hok).
  destruct ok.
  - exists w1. split; [exact Hw|]. split; [exact (proj1 Hok)|].
    vm_compute in Hw. inversion Hw. reflexivity.
  - vm_compute in Hw. discriminate.
Defined.

(** ** Drain primitives *)

(** C7: Finish on a usable helper returns true at once when put = get;
    otherwise it only issues FlushSync calls: it returns true after a run of
    successful FlushSyncs that ends with put = get, and returns false as soon
    as one FlushSync reports an error (that call is the last one). *)
Theorem Finish_drains service clock fuel w :
  usable w = true ->
  (put_ w = get_offset w -> Finish service clock fuel w = Some (true, w)) /\
  (forall b w', Finish service clock fuel w = Some (b, w') ->
     exists evs, trace w' = trace w ++ evs /\
       (b = true -> put_ w' = get_offset w' /\
                    Forall (fun e => is_flush_sync e && flush_sync_ok e = true) evs) /\
       (b = false -> error_s (last_state w') <> kNoError /\
          exists oks e, evs = oks ++ [e] /\
            Forall (fun e => is_flush_sync e && flush_sync_ok e = true) oks /\
            is_flush_sync e = true /\ flush_sync_ok e = false)).
Proof.
  intros Hu. unfold Finish. rewrite Hu. simpl. split.
  - intros E. rewrite E, Z.eqb_refl. reflexivity.
  - intros b w'. destruct (Z.eqb_spec (put_ w) (get_offset w)) as [E|E].
    + intros H; inversion H; subst. exists []. rewrite app_nil_r.
      split; [reflexivity|]. split; [intros _; split; [exact E|constructor]|discriminate].
    + intros H. exact (proj2 (finish_loop_spec service clock fuel w b w' Hu H)).
Qed.

(** C7 witness: put 6, get 2; the service catches up at the first FlushSync. *)
Lemma Finish_drains_witness :
  exists w', Finish service_drain clock0 3 (ring8 false 0 0 6 0 (st8 2 6 0 kNoError))
             = Some (true, w') /\ put_ w' = get_offset w'.
Proof.
  destruct (Finish service_drain clock0 3 (ring8 false 0 0 6 0 (st8 2 6 0 kNoError)))
    as [[b w']|] eqn:E; [|vm_compute in E; discriminate].
  assert (Hb : b = true) by (vm_compute in E; congruence). subst b.
  exists w'. split; [reflexivity|].
  destruct (proj2 (Finish_drains service_drain clock0 3
                     (ring8 false 0 0 6 0 (st8 2 6 0 kNoError)) eq_refl) true w' E)
    as (evs & _ & Ht & _).
  exact (proj1 (Ht eq_refl)).
Defined.

Lemma Finish_result service clock fuel w b w' :
  usable w = true -> Finish service clock fuel w = Some (b, w') ->
  (b = true -> put_ w' = get_offset w') /\
  (b = false -> error_s (last_state w') <> kNoError).
Proof.
  intros Hu. unfold Finish. rewrite Hu. simpl.
  destruct (Z.eqb_spec (put_ w) (get_offset w)) as [E|E].
  - intros H; inversion H; subst. split; [intros _; exact E|discriminate].
  - intros H. destruct (finish_loop_spec service clock fuel w b w' Hu H) as (_ & evs & _ & Tb & Fb).
    split; [intros Hb; exact (proj1 (Tb Hb))|intros Hb; exact (proj1 (Fb Hb))].
Qed.

Lemma land_31 x : Z.land x 2147483647 = x mod 2 ^ 31.
Proof. change 2147483647 with (Z.ones 31). apply Z.land_ones. lia. Qed.

(** ** Token synchronizer: InsertToken *)

(** C3 (what the code does): on a usable helper with its ring allocated, InsertToken
    returns the new counter value [(token + 1) mod 2^31], one more than the
    previous value unless it wraps to 0.  The wrapped value 0 is returned only
    once the ring has been observed drained (put = get, by Finish) or the
    service has reported an error: Finish is called when the SetToken command
    was written, and its failure is ignored; when no space could be obtained
    (a FlushSync failed) the value is returned without Finish. *)
Theorem InsertToken_advances service create_transfer_id clock fuel w t w' :
  usable w = true -> HaveRingBuffer w = true -> 0 <= token_ w ->
  InsertToken service create_transfer_id clock fuel w = Some (t, w') ->
  t = token_ w' /\ t = (token_ w + 1) mod 2 ^ 31 /\
  (token_ w < 2 ^ 31 - 1 -> t = token_ w + 1) /\
  (t = 0 -> put_ w' = get_offset w' \/ error_s (last_state w') <> kNoError).
Proof.
  intros Hu Hr Ht H. unfold InsertToken in H.
  rewrite (Alloc_ready service create_transfer_id w Hu Hr) in H. rewrite Hu in H. simpl in H.
  set (w1 := set_token (Z.land (token_ w + 1) 2147483647) w) in H.
  assert (Hu1 : usable w1 = true) by exact Hu.
  assert (Hr1 : HaveRingBuffer w1 = true) by exact Hr.
  assert (Ht1 : token_ w1 = (token_ w + 1) mod 2 ^ 31) by (unfold w1; simpl; apply land_31).
  assert (Hsmall : token_ w < 2 ^ 31 - 1 -> (token_ w + 1) mod 2 ^ 31 = token_ w + 1)
    by (intros; apply Z.mod_small; lia).
  destruct (GetSpace service create_transfer_id clock fuel kSetTokenEntries w1)
    as [[[off|] w2]|] eqn:G; [| |discriminate].
  - destruct (GetSpace_ready service create_transfer_id clock fuel _ w1 _ w2 Hu1 Hr1 G) as [Fr _].
    rewrite <- (frame_usable _ _ Fr) in Hu1. rewrite <- (frame_token _ _ Fr) in Ht1.
    set (w3 := log (ESetToken off (token_ w2)) w2) in H.
    assert (Hu3 : usable w3 = true) by exact Hu1.
    assert (Ht3 : token_ w3 = token_ w2) by reflexivity.
    destruct (Z.eqb_spec (token_ w2) 0) as [Z0|Z0].
    + destruct (Finish service clock fuel w3) as [[b w4]|] eqn:Fi; [|discriminate].
      inversion H; subst t w'. clear H.
      rewrite (frame_token _ _ (Finish_frame service clock fuel w3 b w4 Fi)).
      split; [reflexivity|]. rewrite Ht3, <- Ht1. split; [reflexivity|].
      split; [intros; rewrite Ht1; apply Hsmall; assumption|].
      intros _. destruct (Finish_result service clock fuel w3 b w4 Hu3 Fi) as [T F].
      destruct b; [left; apply T|right; apply F]; reflexivity.
    + inversion H; subst t w'. split; [reflexivity|]. rewrite <- Ht1.
      split; [reflexivity|]. split; [intros; rewrite Ht1; apply Hsmall; assumption|].
      intros E. contradiction.
  - destruct (GetSpace_ready service create_transfer_id clock fuel _ w1 _ w2 Hu1 Hr1 G) as [Fr Hn].
    rewrite <- (frame_token _ _ Fr) in Ht1.
    inversion H; subst t w'. split; [reflexivity|]. split; [exact Ht1|].
    split; [intros; rewrite Ht1; apply Hsmall; assumption|].
    intros _. right. apply Hn. reflexivity.
Qed.

(** C3 witness: the counter wraps from 2^31 - 1 to 0 on a full ring; the
    service frees space, the SetToken command is written and Finish drains
    the ring (put = get = 6) before 0 is returned. *)
Lemma InsertToken_advances_witness :
  exists w', InsertToken service_wrap (fun _ => 1) clock0 5 wrap_full = Some (0, w') /\
             put_ w' = get_offset w'.
Proof.
  destruct (InsertToken service_wrap (fun _ => 1) clock0 5 wrap_full) as [[t w']|] eqn:E;
    [|vm_compute in E; discriminate].
  assert (Ht : t = 0) by (vm_compute in E; congruence). subst t.
  exists w'. split; [reflexivity|].
  destruct (InsertToken_advances service_wrap (fun _ => 1) clock0 5 wrap_full 0 w'
              eq_refl eq_refl ltac:(vm_compute; discriminate) E) as (_ & _ & _ & D).
  destruct (D eq_refl) as [P|P]; [exact P|].
  vm_compute in E. inversion E. subst w'. vm_compute in P. contradiction.
Defined.

(** C3 failing input: the same wrap with a service that reports an error:
    the space wait's FlushSync fails, the SetToken command is never written,
    Finish is never run (the only channel call is that failed FlushSync),
    and 0 is returned while the ring is not drained and the service's
    acknowledged token is still 7. *)
Lemma InsertToken_wrap_without_finish :
  exists w', InsertToken service_error (fun _ => 1) clock0 5 wrap_full = Some (0, w') /\
    trace w' = [EFlushSync 5 6 (service_error O)] /\
    put_ w' <> get_offset w' /\ last_token_read w' = 7.
Proof.
  eexists. split; [vm_compute; reflexivity|].
  split; [reflexivity|]. split; [discriminate|reflexivity].
Qed.

(** ** Usability and token range across all operations *)

Section AllOps.
Variable service : nat -> CmdState.
Variable create_transfer_id : Z -> Z.
Variable clock : nat -> Z.

Lemma WaitForAvailableEntries_alloc fuel count w w' :
  WaitForAvailableEntries service create_transfer_id clock fuel count w = Some w' ->
  exists b w1, AllocateRingBuffer service create_transfer_id w = (b, w1) /\
    usable w' = usable w1 /\ token_ w' = token_ w1.
Proof.
  unfold WaitForAvailableEntries.
  destruct (AllocateRingBuffer service create_transfer_id w) as [b w1] eqn:A.
  intros H. exists b, w1. split; [reflexivity|].
  destruct (usable w1) eqn:U; simpl in H; [|inversion H; subst; split; [congruence|reflexivity]].
  destruct (wrap_phase service clock fuel count w1) as [[[] w2]|] eqn:E; try discriminate;
    destruct (wrap_phase_spec service clock fuel count w1 _ w2 U E) as [Fr _].
  - rewrite <- (frame_usable _ _ Fr) in U.
    destruct (space_phase_spec service clock fuel count w2 w' U H) as [F2 _].
    pose proof (frame_trans _ _ _ Fr F2) as F3.
    split; [rewrite (frame_usable _ _ F2); exact U|exact (frame_token _ _ F3)].
  - inversion H; subst. split; [rewrite (frame_usable _ _ Fr); exact U|exact (frame_token _ _ Fr)].
Qed.

Lemma GetSpace_alloc fuel n w o w' :
  GetSpace service create_transfer_id clock fuel n w = Some (o, w') ->
  token_ w' = token_ w /\
  (usable w' = usable w \/
   exists b w1, AllocateRingBuffer service create_transfer_id w = (b, w1) /\ usable w' = usable w1).
Proof.
  unfold GetSpace. destruct (n >? immediate_entry_count_ w).
  - destruct (WaitForAvailableEntries service create_transfer_id clock fuel n w) as [w2|] eqn:E;
      [|discriminate].
    destruct (WaitForAvailableEntries_alloc fuel n w w2 E) as (b & w1 & A & U & T).
    destruct (Alloc_result service create_transfer_id w b w1 A) as (Tk & _).
    destruct (n >? immediate_entry_count_ w2); intros H; inversion H; subst; simpl;
      (split; [congruence|right; exists b, w1; split; [exact A|exact U]]).
  - destruct (n >? immediate_entry_count_ w); intros H; inversion H; subst; simpl;
      split; auto.
Qed.

Lemma InsertToken_alloc fuel w t w' :
  InsertToken service create_transfer_id clock fuel w = Some (t, w') ->
  t = token_ w' /\
  (token_ w' = token_ w \/ token_ w' = Z.land (token_ w + 1) 2147483647) /\
  exists b w1, AllocateRingBuffer service create_transfer_id w = (b, w1) /\ usable w' = usable w1.
Proof.
  unfold InsertToken.
  destruct (AllocateRingBuffer service create_transfer_id w) as [b w1] eqn:A.
  destruct (Alloc_result service create_transfer_id w b w1 A) as (Tk & Ur & _).
  destruct (usable w1) eqn:U; simpl.
  2:{ intros H; inversion H; subst. split; [reflexivity|]. split; [left; exact Tk|].
      exists b, w'. split; [first [exact A|reflexivity]|reflexivity]. }
  destruct (Ur eq_refl) as [_ Hr].
  set (w2 := set_token (Z.land (token_ w1 + 1) 2147483647) w1).
  assert (Hu2 : usable w2 = true) by exact U.
  assert (Hr2 : HaveRingBuffer w2 = true) by exact Hr.
  destruct (GetSpace service create_transfer_id clock fuel kSetTokenEntries w2)
    as [[[off|] w3]|] eqn:G; [| |discriminate];
    destruct (GetSpace_ready service create_transfer_id clock fuel _ w2 _ w3 Hu2 Hr2 G) as [Fr _].
  - set (w4 := log (ESetToken off (token_ w3)) w3).
    assert (F4 : frame w2 w4) by (eapply frame_trans; [exact Fr|apply frame_log]).
    destruct (token_ w3 =? 0).
    + destruct (Finish service clock fuel w4) as [[c w5]|] eqn:Fi; [|discriminate].
      intros H; inversion H; subst.
      pose proof (frame_trans _ _ _ F4 (Finish_frame service clock fuel w4 c w' Fi)) as F5.
      split; [reflexivity|]. split; [right; rewrite (frame_token _ _ F5), <- Tk; reflexivity|].
      exists b, w1. split; [first [exact A|reflexivity]|]. rewrite (frame_usable _ _ F5). first [exact U|reflexivity].
    + intros H; inversion H; subst.
      split; [reflexivity|]. split; [right; rewrite (frame_token _ _ F4), <- Tk; reflexivity|].
      exists b, w1. split; [first [exact A|reflexivity]|]. rewrite (frame_usable _ _ F4). first [exact U|reflexivity].
  - intros H; inversion H; subst.
    split; [reflexivity|]. split; [right; rewrite (frame_token _ _ Fr), <- Tk; reflexivity|].
    exists b, w1. split; [first [exact A|reflexivity]|]. rewrite (frame_usable _ _ Fr). first [exact U|reflexivity].
Qed.

Lemma WaitForToken_frame fuel t w o w' :
  WaitForToken service clock fuel t w = Some (o, w') -> frame w w'.
Proof.
  unfold WaitForToken.
  destruct (_ || _); [intros H; inversion H; subst; apply frame_refl|].
  destruct (t <? 0); [intros H; inversion H; subst; apply frame_refl|].
  destruct (t >? token_ w); [intros H; inversion H; subst; apply frame_refl|].
  apply wait_token_loop_frame.
Qed.


Lemma run_op_token fuel op w w' :
  run_op service create_transfer_id clock fuel op w = Some w' ->
  token_ w' = token_ w \/ token_ w' = Z.land (token_ w + 1) 2147483647.
Proof.
  destruct op; simpl; intros H;
    [left|left|left|left|left|left|left|left|left|idtac|left|left|left].
  - inversion H; subst. unfold SetAutomaticFlushes. rewrite (frame_token _ _ (frame_Calc _ _)). reflexivity.
  - inversion H; subst. unfold IsContextLost. destruct (negb _); reflexivity.
  - inversion H; subst.
    destruct (AllocateRingBuffer service create_transfer_id w) as [b w1] eqn:A.
    exact (proj1 (Alloc_result service create_transfer_id w b w1 A)).
  - inversion H; subst. unfold FreeResources. destruct (HaveRingBuffer w); [|reflexivity].
    rewrite (frame_token _ _ (frame_Calc _ _)). reflexivity.
  - unfold FreeRingBuffer in H. destruct (_ || _); inversion H; subst.
    unfold FreeResources. destruct (HaveRingBuffer w); [|reflexivity].
    rewrite (frame_token _ _ (frame_Calc _ _)). reflexivity.
  - inversion H; subst. unfold Initialize.
    destruct (AllocateRingBuffer service create_transfer_id (set_ring_buffer_size ring_buffer_size w))
      as [b w1] eqn:A.
    exact (proj1 (Alloc_result service create_transfer_id _ b w1 A)).
  - inversion H; subst. apply frame_token, frame_FlushSync.
  - inversion H; subst. apply frame_token, frame_Flush.
  - destruct (Finish service clock fuel w) as [[b w1]|] eqn:F; inversion H; subst.
    exact (frame_token _ _ (Finish_frame service clock fuel w b w' F)).
  - destruct (InsertToken service create_transfer_id clock fuel w) as [[t w1]|] eqn:I;
      inversion H; subst.
    exact (proj1 (proj2 (InsertToken_alloc fuel w t w' I))).
  - destruct (WaitForToken service clock fuel token w) as [[[] w1]|] eqn:E; inversion H; subst.
    exact (frame_token _ _ (WaitForToken_frame fuel token w _ w' E)).
  - destruct (WaitForAvailableEntries_alloc fuel count w w' H) as (b & w1 & A & _ & T).
    rewrite T. exact (proj1 (Alloc_result service create_transfer_id w b w1 A)).
  - destruct (GetSpace service create_transfer_id clock fuel entries w) as [[o w1]|] eqn:G;
      inversion H; subst.
    exact (proj1 (GetSpace_alloc fuel entries w o w' G)).
Qed.

End AllOps.




(** C10 (what the code does): WaitForToken with a negative token returns at once with
    the world unchanged (no channel call).  The counter starts at 0 and every
    operation keeps it in [0, 2^31); InsertToken returns the counter as it
    leaves it, in its failure paths too, so it never returns a negative
    value. *)
Theorem token_never_negative service create_transfer_id clock :
  (forall fuel token w, token < 0 ->
     WaitForToken service clock fuel token w = Some (WaitReturned, w)) /\
  (forall st g, token_ (new_helper st g) = 0) /\
  (forall fuel op w w', 0 <= token_ w < 2 ^ 31 ->
     run_op service create_transfer_id clock fuel op w = Some w' ->
     0 <= token_ w' < 2 ^ 31) /\
  (forall fuel w t w', 0 <= token_ w < 2 ^ 31 ->
     InsertToken service create_transfer_id clock fuel w = Some (t, w') ->
     t = token_ w' /\ 0 <= t < 2 ^ 31).
Proof.
  split; [|split; [reflexivity|split]].
  - intros fuel token w Hn. unfold WaitForToken.
    destruct (_ || _); [reflexivity|].
    replace (token <? 0) with true by (symmetry; apply Z.ltb_lt; exact Hn). reflexivity.
  - intros fuel op w w' Hr H.
    destruct (run_op_token service create_transfer_id clock fuel op w w' H) as [T|T];
      rewrite T; [exact Hr|]. rewrite land_31. apply Z.mod_pos_bound. lia.
  - intros fuel w t w' Hr H.
    destruct (InsertToken_alloc service create_transfer_id clock fuel w t w' H) as (Ht & [T|T] & _);
      subst t; split; try reflexivity; rewrite T; [exact Hr|].
    rewrite land_31. apply Z.mod_pos_bound. lia.
Qed.

(** C10 witness: WaitForToken(-1) leaves Scenario A untouched, and an
    InsertToken whose ring allocation fails returns 0. *)
Lemma token_never_negative_witness :
  WaitForToken service_drain clock0 3 (-1) (scenarioA true) = Some (WaitReturned, scenarioA true) /\
  option_map fst (InsertToken service_drain (fun _ => -1) clock0 3 (new_helper (st8 0 0 0 kNoError) 0))
    = Some 0.
Proof.
  split.
  - apply (proj1 (token_never_negative service_drain (fun _ => -1) clock0)). lia.
  - destruct (InsertToken service_drain (fun _ => -1) clock0 3 (new_helper (st8 0 0 0 kNoError) 0))
      as [[t w']|] eqn:E; [|vm_compute in E; discriminate].
    assert (Hr : 0 <= token_ (new_helper (st8 0 0 0 kNoError) 0) < 2 ^ 31)
      by (simpl; lia).
    destruct (proj2 (proj2 (proj2 (token_never_negative service_drain (fun _ => -1) clock0)))
                3%nat (new_helper (st8 0 0 0 kNoError) 0) t w' Hr E) as [Ht _].
    simpl. rewrite Ht. vm_compute in E. inversion E. reflexivity.
Defined.

(** C10 failing input: a failed InsertToken (its ring allocation fails)
    returns 0, the unchanged counter, not a negative sentinel. *)
Lemma InsertToken_failure_not_negative :
  exists w', InsertToken service_drain (fun _ => -1) clock0 3 (new_helper (st8 0 0 0 kNoError) 0)
             = Some (0, w') /\ usable w' = false /\ trace w' = [ECreateTransferBuffer 0 (-1)].
Proof. eexists. split; [vm_compute; reflexivity|split; reflexivity]. Qed.

(** ** What the operations keep *)

Lemma fcount_app a b : fcount (a ++ b) = fcount a + fcount b.
Proof. unfold fcount. rewrite filter_app, length_app. lia. Qed.

Lemma land_32 x : Z.land x 4294967295 = x mod 2 ^ 32.
Proof. change 4294967295 with (Z.ones 32). apply Z.land_ones. lia. Qed.

Lemma gen_incr g : Z.land (g + 1) 4294967295 mod 2 ^ 32 = (g + 1) mod 2 ^ 32.
Proof. rewrite land_32, Z.mod_mod by lia. reflexivity. Qed.

Lemma gen_nil g : g mod 2 ^ 32 = (g + fcount []) mod 2 ^ 32.
Proof. unfold fcount. simpl. rewrite Z.add_0_r. reflexivity. Qed.

Lemma gen_trans g1 g2 g3 a b :
  g2 mod 2 ^ 32 = (g1 + a) mod 2 ^ 32 -> g3 mod 2 ^ 32 = (g2 + b) mod 2 ^ 32 ->
  g3 mod 2 ^ 32 = (g1 + (a + b)) mod 2 ^ 32.
Proof.
  intros H1 H2. rewrite H2, <- Z.add_mod_idemp_l, H1, Z.add_mod_idemp_l by lia.
  f_equal. lia.
Qed.

Lemma gen_flush g e :
  is_flush e = true -> Z.land (g + 1) 4294967295 mod 2 ^ 32 = (g + fcount [e]) mod 2 ^ 32.
Proof. intros He. rewrite land_32, Z.mod_mod by lia. unfold fcount. simpl. rewrite He. reflexivity. Qed.

Ltac kept_nil :=
  repeat split; exists []; rewrite app_nil_r; split; [reflexivity|apply gen_nil].

Lemma kept_refl w : kept w w.
Proof. kept_nil. Qed.

Lemma kept_trans w1 w2 w3 : kept w1 w2 -> kept w2 w3 -> kept w1 w3.
Proof.
  intros (H1 & H2 & H3 & e1 & T1 & G1) (K1 & K2 & K3 & e2 & T2 & G2).
  split; [congruence|]. split; [congruence|]. split; [congruence|].
  exists (e1 ++ e2). rewrite T2, T1, app_assoc, fcount_app.
  split; [reflexivity|exact (gen_trans _ _ _ _ _ G1 G2)].
Qed.

Lemma kept_koc w w' : kept w w' -> kept_or_cleared w w'.
Proof.
  intros (H1 & H2 & H3 & E). split; [congruence|]. split; [left; exact H2|split; assumption].
Qed.

Lemma koc_kept w1 w2 w3 : kept_or_cleared w1 w2 -> kept w2 w3 -> kept_or_cleared w1 w3.
Proof.
  intros (C & U & H3 & e1 & T1 & G1) (K1 & K2 & K3 & e2 & T2 & G2).
  split; [intros X; rewrite K1; exact (C X)|].
  split; [destruct U; [left|right]; congruence|].
  split; [congruence|].
  exists (e1 ++ e2). rewrite T2, T1, app_assoc, fcount_app.
  split; [reflexivity|exact (gen_trans _ _ _ _ _ G1 G2)].
Qed.

Lemma koc_trans w1 w2 w3 :
  kept_or_cleared w1 w2 -> kept_or_cleared w2 w3 -> kept_or_cleared w1 w3.
Proof.
  intros (C & U & H3 & e1 & T1 & G1) (D & V & K3 & e2 & T2 & G2).
  split; [intros X; exact (D (C X))|].
  split; [destruct U; destruct V; first [left; congruence|right; congruence]|].
  split; [congruence|].
  exists (e1 ++ e2). rewrite T2, T1, app_assoc, fcount_app.
  split; [reflexivity|exact (gen_trans _ _ _ _ _ G1 G2)].
Qed.

Lemma kept_set_immediate x w : kept w (set_immediate_entry_count x w).
Proof. kept_nil. Qed.

Lemma kept_set_put x w : kept w (set_put x w).
Proof. kept_nil. Qed.

Lemma kept_set_token x w : kept w (set_token x w).
Proof. kept_nil. Qed.

Lemma kept_set_ring_buffer_id x w : kept w (set_ring_buffer_id x w).
Proof. kept_nil. Qed.

Lemma kept_set_flush_automatically b w : kept w (set_flush_automatically b w).
Proof. kept_nil. Qed.

Lemma kept_set_reply st w : kept w (set_reply st w).
Proof. kept_nil. Qed.

Lemma kept_set_total_entry_count x w : kept w (set_total_entry_count x w).
Proof. kept_nil. Qed.

Lemma kept_koc_trans w1 w2 w3 : kept w1 w2 -> kept_or_cleared w2 w3 -> kept_or_cleared w1 w3.
Proof.
  intros (H1 & H2 & H3 & e1 & T1 & G1) (C & U & K3 & e2 & T2 & G2).
  split; [intros X; apply C; congruence|].
  split; [destruct U; [left|right]; congruence|].
  split; [congruence|].
  exists (e1 ++ e2). rewrite T2, T1, app_assoc, fcount_app.
  split; [reflexivity|exact (gen_trans _ _ _ _ _ G1 G2)].
Qed.

Lemma kept_log e w : is_flush e = false -> kept w (log e w).
Proof.
  intros He. repeat split. exists [e]. split; [reflexivity|].
  unfold fcount. simpl. rewrite He. simpl. rewrite Z.add_0_r. reflexivity.
Qed.

Lemma koc_ClearUsable w : kept_or_cleared w (ClearUsable w).
Proof.
  unfold ClearUsable. calc_out. split; [intros X; exact X|]. split; [right; reflexivity|].
  split; [reflexivity|]. exists []. rewrite app_nil_r. split; [reflexivity|apply gen_nil].
Qed.

Lemma kept_Calc wc w : kept w (CalcImmediateEntries wc w).
Proof. calc_out. apply kept_set_immediate. Qed.

Lemma kept_wrap_put w : kept w (wrap_put w).
Proof. unfold wrap_put. destruct (_ =? _); [apply kept_set_put|apply kept_refl]. Qed.

Lemma Calc_no_ring wc w :
  HaveRingBuffer w = false -> CalcImmediateEntries wc w = set_immediate_entry_count 0 w.
Proof. intros H. unfold CalcImmediateEntries. rewrite H, orb_true_r. reflexivity. Qed.

Lemma Calc_set_immediate wc x w :
  CalcImmediateEntries wc (set_immediate_entry_count x w) = CalcImmediateEntries wc w.
Proof. destruct w; reflexivity. Qed.

Lemma IsContextLost_eq w :
  IsContextLost w =
  (context_lost_ w || negb (error_s (last_state w) =? kNoError),
   set_context_lost (context_lost_ w || negb (error_s (last_state w) =? kNoError)) w).
Proof.
  destruct w as [u cl rid rsz tot imm tok put lps fa lft gen st ns tr].
  unfold IsContextLost. simpl. destruct cl; reflexivity.
Qed.

Lemma kept_FreeResources w : kept w (FreeResources w).
Proof.
  unfold FreeResources. destruct (HaveRingBuffer w); [|apply kept_refl].
  eapply kept_trans; [|apply kept_Calc].
  eapply kept_trans; [|apply kept_set_ring_buffer_id]. apply kept_log. reflexivity.
Qed.

Lemma wrap_put_fixed u :
  put_ u <> total_entry_count_ u \/ put_ u = 0 -> wrap_put u = u.
Proof.
  unfold wrap_put. destruct (Z.eqb_spec (put_ u) (total_entry_count_ u)); [|reflexivity].
  intros [H|H]; [contradiction|]. destruct u; simpl in *; subst; reflexivity.
Qed.

Lemma wrap_put_usable w : usable (wrap_put w) = usable w.
Proof. unfold wrap_put. destruct (_ =? _); reflexivity. Qed.

Section KeptLoops.
Variable service : nat -> CmdState.
Variable create_transfer_id : Z -> Z.
Variable clock : nat -> Z.

Lemma kept_FlushSync w : kept w (snd (FlushSync service clock w)).
Proof.
  unfold FlushSync, chan_FlushSync. destruct (negb (usable w)); [apply kept_refl|]. simpl.
  eapply kept_trans; [|apply kept_Calc].
  unfold wrap_put. destruct (put_ w =? total_entry_count_ w);
    (repeat split; eexists; split; [reflexivity|apply gen_flush; reflexivity]).
Qed.

Lemma kept_Flush w : kept w (Flush clock w).
Proof.
  destruct (Flush_cases clock w) as [H1 H2].
  destruct (usable w) eqn:Hu; [|rewrite H2 by auto; apply kept_wrap_put].
  destruct (Z.eq_dec (last_put_sent_ w) (put_ (wrap_put w))) as [e|n].
  - rewrite H2 by auto. apply kept_wrap_put.
  - destruct (H1 eq_refl n) as [x ->].
    eapply kept_trans; [apply kept_wrap_put|].
    repeat split. eexists; split; [reflexivity|apply gen_flush; reflexivity].
Qed.

Lemma kept_wrap_wait fuel w ok w1 :
  wrap_wait service clock fuel w = Some (ok, w1) -> kept w w1.
Proof.
  revert w. induction fuel as [|f IH]; intros w H; [discriminate|].
  simpl in H. destruct (_ || _).
  - pose proof (kept_FlushSync w) as K. destruct (FlushSync service clock w) as [ok' w2].
    destruct ok'; simpl in H, K; [exact (kept_trans _ _ _ K (IH _ H))|inversion H; subst; exact K].
  - inversion H; subst; apply kept_refl.
Qed.

Lemma kept_pad fuel n w : kept w (pad_tail_fuel fuel n w).
Proof.
  revert n w. induction fuel as [|f IH]; intros n w; simpl; [apply kept_refl|].
  destruct (n >? 0); [|apply kept_refl].
  eapply kept_trans; [|apply IH].
  eapply kept_trans; [|apply kept_set_put]. apply kept_log. reflexivity.
Qed.

Lemma kept_space_wait fuel count w w' :
  space_wait service clock fuel count w = Some w' -> kept w w'.
Proof.
  revert w. induction fuel as [|f IH]; intros w H; [discriminate|].
  simpl in H. destruct (_ <? _).
  - pose proof (kept_FlushSync w) as K. destruct (FlushSync service clock w) as [ok w2].
    destruct ok; simpl in H, K.
    + eapply kept_trans; [exact K|]. eapply kept_trans; [apply kept_Calc|exact (IH _ H)].
    + inversion H; subst; exact K.
  - inversion H; subst; apply kept_refl.
Qed.

Lemma kept_space_phase fuel count w w' :
  space_phase service clock fuel count w = Some w' -> kept w w'.
Proof.
  intros H. unfold space_phase in H. cbv zeta in H.
  assert (K : kept w (CalcImmediateEntries count (Flush clock (CalcImmediateEntries count w))))
    by (eapply kept_trans; [apply kept_Calc|];
        eapply kept_trans; [apply kept_Flush|apply kept_Calc]).
  destruct (immediate_entry_count_ (CalcImmediateEntries count w) <? count).
  - destruct (immediate_entry_count_
                (CalcImmediateEntries count (Flush clock (CalcImmediateEntries count w))) <? count).
    + exact (kept_trans _ _ _ K (kept_space_wait _ _ _ _ H)).
    + inversion H; subst; exact K.
  - inversion H; subst; apply kept_Calc.
Qed.

Lemma kept_wrap_phase fuel count w ok w' :
  wrap_phase service clock fuel count w = Some (ok, w') -> kept w w'.
Proof.
  unfold wrap_phase. destruct (_ >? _); [|intros H; inversion H; subst; apply kept_refl].
  destruct (wrap_wait service clock fuel w) as [[[] w1]|] eqn:E; intros H; inversion H; subst.
  - eapply kept_trans; [exact (kept_wrap_wait _ _ _ _ E)|].
    eapply kept_trans; [unfold pad_tail; apply kept_pad|apply kept_set_put].
  - exact (kept_wrap_wait _ _ _ _ E).
Qed.

Lemma kept_finish_loop fuel w b w' :
  finish_loop service clock fuel w = Some (b, w') -> kept w w'.
Proof.
  revert w. induction fuel as [|f IH]; intros w H; [discriminate|].
  simpl in H. pose proof (kept_FlushSync w) as K. destruct (FlushSync service clock w) as [ok w2].
  simpl in K. destruct ok; simpl in H; [|inversion H; subst; exact K].
  destruct (_ =? _); simpl in H; [inversion H; subst; exact K|exact (kept_trans _ _ _ K (IH _ H))].
Qed.

Lemma kept_Finish fuel w b w' :
  Finish service clock fuel w = Some (b, w') -> kept w w'.
Proof.
  unfold Finish. destruct (negb (usable w)); [intros H; inversion H; subst; apply kept_refl|].
  destruct (_ =? _); [intros H; inversion H; subst; apply kept_refl|].
  apply kept_finish_loop.
Qed.

Lemma kept_wait_token_loop fuel t w o w' :
  wait_token_loop service clock fuel t w = Some (o, w') -> kept w w'.
Proof.
  revert w. induction fuel as [|f IH]; intros w H; [discriminate|].
  simpl in H. destruct (_ <? _); [|inversion H; subst; apply kept_refl].
  destruct (_ =? _); [inversion H; subst; apply kept_refl|].
  pose proof (kept_FlushSync w) as K. destruct (FlushSync service clock w) as [ok w2].
  simpl in K. destruct ok; simpl in H; [exact (kept_trans _ _ _ K (IH _ H))|inversion H; subst; exact K].
Qed.

Lemma kept_WaitForToken fuel t w o w' :
  WaitForToken service clock fuel t w = Some (o, w') -> kept w w'.
Proof.
  unfold WaitForToken.
  destruct (_ || _); [intros H; inversion H; subst; apply kept_refl|].
  destruct (t <? 0); [intros H; inversion H; subst; apply kept_refl|].
  destruct (t >? token_ w); [intros H; inversion H; subst; apply kept_refl|].
  apply kept_wait_token_loop.
Qed.

Lemma koc_Alloc w b w1 :
  AllocateRingBuffer service create_transfer_id w = (b, w1) -> kept_or_cleared w w1.
Proof.
  unfold AllocateRingBuffer, chan_GetState.
  destruct (negb (usable w)); [intros H; inversion H; subst; apply kept_koc, kept_refl|].
  destruct (HaveRingBuffer w); [intros H; inversion H; subst; apply kept_koc, kept_refl|].
  cbv beta iota zeta.
  destruct (create_transfer_id (ring_buffer_size_ w) <? 0).
  - intros H; inversion H; subst.
    eapply kept_koc_trans; [|apply koc_ClearUsable]. apply kept_log; reflexivity.
  - assert (K : forall id st,
               kept w (log (EGetState st) (set_reply st (log (ESetGetBuffer id)
                 (set_ring_buffer_id id (log (ECreateTransferBuffer (ring_buffer_size_ w) id) w)))))).
    { intros id st.
      eapply kept_trans; [|apply kept_log; reflexivity].
      eapply kept_trans; [|apply kept_set_reply].
      eapply kept_trans; [|apply kept_log; reflexivity].
      eapply kept_trans; [|apply kept_set_ring_buffer_id].
      apply kept_log; reflexivity. }
    destruct (_ >? _); intros H; inversion H; subst.
    + eapply kept_koc_trans; [|apply koc_ClearUsable]. apply K.
    + apply kept_koc. eapply kept_trans; [|apply kept_Calc].
      eapply kept_trans; [|apply kept_set_put].
      eapply kept_trans; [|apply kept_set_total_entry_count]. apply K.
Qed.

Lemma koc_WaitForAvailableEntries fuel count w w' :
  WaitForAvailableEntries service create_transfer_id clock fuel count w = Some w' ->
  kept_or_cleared w w'.
Proof.
  unfold WaitForAvailableEntries.
  destruct (AllocateRingBuffer service create_transfer_id w) as [b w1] eqn:A.
  pose proof (koc_Alloc w b w1 A) as K.
  destruct (negb (usable w1)); [intros H; inversion H; subst; exact K|].
  destruct (wrap_phase service clock fuel count w1) as [[[] w2]|] eqn:E; try discriminate;
    pose proof (kept_wrap_phase fuel count w1 _ w2 E) as K2.
  - intros H. exact (koc_kept _ _ _ (koc_kept _ _ _ K K2) (kept_space_phase _ _ _ _ H)).
  - intros H; inversion H; subst. exact (koc_kept _ _ _ K K2).
Qed.

Lemma koc_GetSpace fuel n w o w' :
  GetSpace service create_transfer_id clock fuel n w = Some (o, w') -> kept_or_cleared w w'.
Proof.
  unfold GetSpace.
  assert (S : forall u, kept u (set_immediate_entry_count (immediate_entry_count_ u - n)
                                  (set_put (put_ u + n) u)))
    by (intros u; eapply kept_trans; [apply kept_set_put|apply kept_set_immediate]).
  destruct (n >? immediate_entry_count_ w).
  - destruct (WaitForAvailableEntries service create_transfer_id clock fuel n w) as [w2|] eqn:E;
      [|discriminate].
    pose proof (koc_WaitForAvailableEntries fuel n w w2 E) as K.
    destruct (n >? immediate_entry_count_ w2); intros H; inversion H; subst;
      [exact K|exact (koc_kept _ _ _ K (S w2))].
  - destruct (n >? immediate_entry_count_ w); intros H; inversion H; subst;
      [apply kept_koc, kept_refl|apply kept_koc, S].
Qed.

Lemma koc_InsertToken fuel w t w' :
  InsertToken service create_transfer_id clock fuel w = Some (t, w') -> kept_or_cleared w w'.
Proof.
  unfold InsertToken.
  destruct (AllocateRingBuffer service create_transfer_id w) as [b w1] eqn:A.
  pose proof (koc_Alloc w b w1 A) as K.
  destruct (negb (usable w1)); [intros H; inversion H; subst; exact K|].
  pose proof (koc_kept _ _ _ K (kept_set_token (Z.land (token_ w1 + 1) 2147483647) w1)) as K1.
  destruct (GetSpace service create_transfer_id clock fuel kSetTokenEntries
              (set_token (Z.land (token_ w1 + 1) 2147483647) w1)) as [[[off|] w3]|] eqn:G;
    [| |discriminate];
    pose proof (koc_GetSpace fuel _ _ _ w3 G) as K3.
  - pose proof (kept_log (ESetToken off (token_ w3)) w3 eq_refl) as K4.
    destruct (_ =? 0).
    + destruct (Finish service clock fuel (log (ESetToken off (token_ w3)) w3)) as [[c w5]|] eqn:Fi;
        [|discriminate].
      intros H; inversion H; subst.
      exact (koc_trans _ _ _ (koc_trans _ _ _ K1 K3)
               (kept_koc _ _ (kept_trans _ _ _ K4 (kept_Finish _ _ _ _ Fi)))).
    + intros H; inversion H; subst. exact (koc_trans _ _ _ (koc_trans _ _ _ K1 K3) (kept_koc _ _ K4)).
  - intros H; inversion H; subst. exact (koc_trans _ _ _ K1 K3).
Qed.

End KeptLoops.

Section OpEffects.
Variable service : nat -> CmdState.
Variable create_transfer_id : Z -> Z.
Variable clock : nat -> Z.

Lemma run_op_effect fuel op w w' :
  run_op service create_transfer_id clock fuel op w = Some w' ->
  match op with
  | OpIsContextLost =>
      w' = set_context_lost (context_lost_ w || negb (error_s (last_state w) =? kNoError)) w
  | OpInitialize n => kept_or_cleared (set_ring_buffer_size n w) w'
  | _ => kept_or_cleared w w'
  end.
Proof.
  destruct op; cbn [run_op]; intros H.
  - inversion H; subst. apply kept_koc. unfold SetAutomaticFlushes.
    eapply kept_trans; [apply kept_set_flush_automatically|apply kept_Calc].
  - rewrite IsContextLost_eq in H. inversion H. reflexivity.
  - destruct (AllocateRingBuffer service create_transfer_id w) as [b w1] eqn:A.
    inversion H; subst. exact (koc_Alloc service create_transfer_id w b w' A).
  - inversion H; subst. apply kept_koc, kept_FreeResources.
  - unfold FreeRingBuffer in H. destruct (_ || _); inversion H; subst.
    apply kept_koc, kept_FreeResources.
  - unfold Initialize in H.
    destruct (AllocateRingBuffer service create_transfer_id (set_ring_buffer_size ring_buffer_size w))
      as [b w1] eqn:A.
    inversion H; subst. exact (koc_Alloc service create_transfer_id _ b w' A).
  - inversion H; subst. apply kept_koc, kept_FlushSync.
  - inversion H; subst. apply kept_koc, kept_Flush.
  - destruct (Finish service clock fuel w) as [[b w1]|] eqn:F; inversion H; subst.
    exact (kept_koc _ _ (kept_Finish service clock _ _ _ _ F)).
  - destruct (InsertToken service create_transfer_id clock fuel w) as [[t w1]|] eqn:I;
      inversion H; subst.
    exact (koc_InsertToken service create_transfer_id clock _ _ _ _ I).
  - destruct (WaitForToken service clock fuel token w) as [[[] w1]|] eqn:E; inversion H; subst.
    exact (kept_koc _ _ (kept_WaitForToken service clock _ _ _ _ _ E)).
  - exact (koc_WaitForAvailableEntries service create_transfer_id clock _ _ _ _ H).
  - destruct (GetSpace service create_transfer_id clock fuel entries w) as [[o w1]|] eqn:G;
      inversion H; subst.
    exact (koc_GetSpace service create_transfer_id clock _ _ _ _ _ G).
Qed.

Lemma run_op_ctx fuel op w w' :
  run_op service create_transfer_id clock fuel op w = Some w' ->
  context_lost_ w = true -> context_lost_ w' = true.
Proof.
  intros H. pose proof (run_op_effect fuel op w w' H) as E.
  destruct op; try exact (proj1 E).
  subst w'. simpl. intros ->. reflexivity.
Qed.

Lemma run_ops_ctx fuel ops w w' :
  run_ops service create_transfer_id clock fuel ops w = Some w' ->
  context_lost_ w = true -> context_lost_ w' = true.
Proof.
  revert w. induction ops as [|op r IH]; intros w H C; cbn [run_ops] in H.
  - inversion H; subst. exact C.
  - destruct (run_op service create_transfer_id clock fuel op w) as [w1|] eqn:E; [|discriminate].
    exact (IH w1 H (run_op_ctx fuel op w w1 E C)).
Qed.

Lemma wait_token_loop_returned fuel t w w' :
  usable w = true -> wait_token_loop service clock fuel t w = Some (WaitReturned, w') ->
  (exists evs, trace w' = trace w ++ evs /\ Forall (fun e => is_flush_sync e = true) evs) /\
  (t <= last_token_read w' \/ error_s (last_state w') <> kNoError).
Proof.
  revert w. induction fuel as [|f IH]; intros w Hu H; [discriminate|].
  simpl in H. destruct (Z.ltb_spec (last_token_read w) t).
  - destruct (_ =? _); [discriminate|].
    destruct (FlushSync service clock w) as [ok w2] eqn:F.
    pose proof (FlushSync_usable service clock w ok w2 Hu F) as (Fr & _ & _ & Ht & _).
    destruct ok; simpl in H.
    + rewrite <- (frame_usable _ _ Fr) in Hu.
      destruct (IH w2 Hu H) as ((evs & T & Fa) & R). split; [|exact R].
      eexists. rewrite T, Ht, <- app_assoc. split; [reflexivity|constructor; auto].
    + inversion H; subst. split.
      * eexists. split; [exact Ht|]. repeat constructor.
      * right. exact (FlushSync_fail service clock w false w' Hu F eq_refl).
  - inversion H; subst. split; [exists []; rewrite app_nil_r; split; [reflexivity|constructor]|].
    left. lia.
Qed.

End OpEffects.

(** ** Further properties of the helper's operations *)

(** CalcImmediateEntries never sets a negative count, and never more than
    the contiguous free space in front of put: on a usable helper with a
    ring, at most [get - put - 1] when [get > put] and [capacity - put]
    (one less when [get = 0]) otherwise; 0 when unusable or without ring. *)
Theorem CalcImmediateEntries_range wc w :
  0 <= wc ->
  put_ w < total_entry_count_ w \/ (put_ w = total_entry_count_ w /\ get_offset w <> 0) ->
  0 <= immediate_entry_count_ (CalcImmediateEntries wc w) <=
    (if usable w && HaveRingBuffer w then spec_writable w else 0).
Proof.
  intros Hw Hp. unfold CalcImmediateEntries, spec_writable.
  destruct (usable w), (HaveRingBuffer w); simpl; try lia.
  rewrite ?Z.gtb_ltb, ?Z.geb_leb.
  destruct (flush_automatically_ w); [|simpl; zcase; lia].
  destruct (_ && _); simpl; rewrite ?Z.gtb_ltb; zcase; lia.
Qed.

Lemma CalcImmediateEntries_range_witness :
  0 <= immediate_entry_count_ (CalcImmediateEntries 0 (scenarioA false)) <= 5.
Proof.
  exact (CalcImmediateEntries_range 0 (scenarioA false) ltac:(lia) (or_introl eq_refl)).
Defined.

(** SetAutomaticFlushes makes no channel call: it sets the flag and
    recomputes the immediate entry count only; of two calls in a row, the
    last one alone determines the result. *)
Theorem SetAutomaticFlushes_last_wins b b' w :
  SetAutomaticFlushes b (SetAutomaticFlushes b' w) = SetAutomaticFlushes b w /\
  flush_automatically_ (SetAutomaticFlushes b w) = b /\
  trace (SetAutomaticFlushes b w) = trace w /\ nsync (SetAutomaticFlushes b w) = nsync w.
Proof.
  unfold SetAutomaticFlushes. destruct (Calc_set 0 (set_flush_automatically b' w)) as [x ->].
  replace (set_flush_automatically b (set_immediate_entry_count x (set_flush_automatically b' w)))
    with (set_immediate_entry_count x (set_flush_automatically b w)) by (destruct w; reflexivity).
  rewrite Calc_set_immediate. split; [reflexivity|].
  destruct (Calc_set 0 (set_flush_automatically b w)) as [y ->]. repeat split.
Qed.

(** IsContextLost makes no channel call: it reports whether the context was
    already marked lost or the proxy's last state carries an error, records
    that answer in context_lost_ and changes nothing else; a second call
    returns the same answer and changes nothing. *)
Theorem IsContextLost_sticky w :
  let b := context_lost_ w || negb (error_s (last_state w) =? kNoError) in
  IsContextLost w = (b, set_context_lost b w) /\
  IsContextLost (set_context_lost b w) = (b, set_context_lost b w).
Proof.
  intros b. split; [apply IsContextLost_eq|].
  rewrite IsContextLost_eq. unfold b. simpl.
  destruct (context_lost_ w), (error_s (last_state w) =? kNoError); reflexivity.
Qed.

(** A successful AllocateRingBuffer on a usable helper without a ring makes
    exactly three channel calls (CreateTransferBuffer of ring_buffer_size_,
    SetGetBuffer with the new id, GetState); the id is non-negative and
    becomes ring_buffer_id_, the ring holds [ring_buffer_size_ / 4] entries,
    no more than the service reports, and put_ is the service's put.  A
    further AllocateRingBuffer then returns true with no change. *)
Theorem AllocateRingBuffer_success service create_transfer_id w w1 :
  usable w = true -> HaveRingBuffer w = false ->
  AllocateRingBuffer service create_transfer_id w = (true, w1) ->
  let id := create_transfer_id (ring_buffer_size_ w) in
  let st := service (nsync w) in
  0 <= id /\
  Z.quot (ring_buffer_size_ w) sizeof_CommandBufferEntry <= num_entries st /\
  trace w1 = trace w ++ [ECreateTransferBuffer (ring_buffer_size_ w) id; ESetGetBuffer id;
                         EGetState st] /\
  ring_buffer_id_ w1 = id /\
  total_entry_count_ w1 = Z.quot (ring_buffer_size_ w) sizeof_CommandBufferEntry /\
  put_ w1 = put_offset_s st /\ last_state w1 = st /\ usable w1 = true /\
  AllocateRingBuffer service create_transfer_id w1 = (true, w1).
Proof.
  intros Hu Hr H. cbv zeta.
  unfold AllocateRingBuffer, chan_GetState in H. rewrite Hu, Hr in H. cbv beta iota zeta in H.
  simpl in H.
  destruct (Z.ltb_spec (create_transfer_id (ring_buffer_size_ w)) 0); [discriminate|].
  destruct (Z.gtb_spec (Z.quot (ring_buffer_size_ w) sizeof_CommandBufferEntry)
              (num_entries (service (nsync w)))); [discriminate|].
  inversion H; subst. calc_out. simpl.
  rewrite <- !app_assoc.
  assert (Hn : HaveRingBuffer (set_immediate_entry_count x (set_put (put_offset_s (service (nsync w)))
     (set_total_entry_count (Z.quot (ring_buffer_size_ w) sizeof_CommandBufferEntry)
        (log (EGetState (service (nsync w))) (set_reply (service (nsync w))
           (log (ESetGetBuffer (create_transfer_id (ring_buffer_size_ w)))
              (set_ring_buffer_id (create_transfer_id (ring_buffer_size_ w))
                 (log (ECreateTransferBuffer (ring_buffer_size_ w)
                    (create_transfer_id (ring_buffer_size_ w))) w)))))))) = true).
  { unfold HaveRingBuffer. simpl.
    destruct (Z.eqb_spec (create_transfer_id (ring_buffer_size_ w)) (-1)); [lia|reflexivity]. }
  repeat split; try lia; try exact Hu.
  apply Alloc_ready; [exact Hu|exact Hn].
Qed.

Lemma AllocateRingBuffer_success_witness :
  exists w1,
    AllocateRingBuffer service_drain (fun _ => 1)
      (set_ring_buffer_size 32 (new_helper (st8 0 0 0 kNoError) 0)) = (true, w1) /\
    ring_buffer_id_ w1 = 1 /\ total_entry_count_ w1 = 8.
Proof.
  destruct (AllocateRingBuffer service_drain (fun _ => 1)
              (set_ring_buffer_size 32 (new_helper (st8 0 0 0 kNoError) 0))) as [b w1] eqn:E.
  assert (Hb : b = true) by (vm_compute in E; congruence). subst b.
  destruct (AllocateRingBuffer_success service_drain (fun _ => 1)
              (set_ring_buffer_size 32 (new_helper (st8 0 0 0 kNoError) 0)) w1
              eq_refl eq_refl E) as (_ & _ & _ & Hid & Ht & _).
  exists w1. split; [reflexivity|]. split; [exact Hid|exact Ht].
Defined.

(** When the service reports fewer entries than the ring's size provides,
    AllocateRingBuffer fails and clears the helper, but keeps the new id in
    ring_buffer_id_: the helper still has a ring, and FreeResources (the
    destructor) destroys that transfer buffer. *)
Theorem AllocateRingBuffer_too_small service create_transfer_id w :
  usable w = true -> HaveRingBuffer w = false ->
  0 <= create_transfer_id (ring_buffer_size_ w) ->
  num_entries (service (nsync w)) < Z.quot (ring_buffer_size_ w) sizeof_CommandBufferEntry ->
  let id := create_transfer_id (ring_buffer_size_ w) in
  exists w1, AllocateRingBuffer service create_transfer_id w = (false, w1) /\
    usable w1 = false /\ ring_buffer_id_ w1 = id /\
    HaveRingBuffer w1 = true /\
    trace (FreeResources w1) = trace w1 ++ [EDestroyTransferBuffer id] /\
    HaveRingBuffer (FreeResources w1) = false.
Proof.
  intros Hu Hr Hid Hn. cbv zeta.
  unfold AllocateRingBuffer, chan_GetState. rewrite Hu, Hr. cbv beta iota zeta. simpl.
  replace (create_transfer_id (ring_buffer_size_ w) <? 0) with false
    by (symmetry; apply Z.ltb_ge; exact Hid).
  replace (Z.quot (ring_buffer_size_ w) sizeof_CommandBufferEntry >?
           num_entries (service (nsync w))) with true by (symmetry; apply Z.gtb_lt; exact Hn).
  unfold ClearUsable. calc_out.
  assert (Hr1 : forall x, HaveRingBuffer (set_immediate_entry_count x
    (set_usable false (log (EGetState (service (nsync w))) (set_reply (service (nsync w))
      (log (ESetGetBuffer (create_transfer_id (ring_buffer_size_ w)))
        (set_ring_buffer_id (create_transfer_id (ring_buffer_size_ w))
          (log (ECreateTransferBuffer (ring_buffer_size_ w)
            (create_transfer_id (ring_buffer_size_ w))) w))))))) = true).
  { intros y. unfold HaveRingBuffer. simpl.
    destruct (Z.eqb_spec (create_transfer_id (ring_buffer_size_ w)) (-1)); [lia|reflexivity]. }
  eexists. split; [reflexivity|]. split; [reflexivity|].
  split; [reflexivity|]. split; [apply Hr1|].
  unfold FreeResources. rewrite Hr1. calc_out. split; reflexivity.
Qed.

Lemma AllocateRingBuffer_too_small_witness :
  exists w1,
    AllocateRingBuffer service_drain (fun _ => 1)
      (set_ring_buffer_size 64 (new_helper (st8 0 0 0 kNoError) 0)) = (false, w1) /\
    HaveRingBuffer w1 = true /\ usable w1 = false.
Proof.
  destruct (AllocateRingBuffer_too_small service_drain (fun _ => 1)
              (set_ring_buffer_size 64 (new_helper (st8 0 0 0 kNoError) 0))
              eq_refl eq_refl ltac:(vm_compute; discriminate) ltac:(vm_compute; reflexivity))
    as (w1 & A & U & _ & R & _).
  exists w1. split; [exact A|split; [exact R|exact U]].
Defined.

(** Initialize on a usable helper that already has a ring only records the
    new ring_buffer_size_ and returns true: no channel call, and the ring
    keeps its old size. *)
Theorem Initialize_keeps_ring service create_transfer_id n w :
  usable w = true -> HaveRingBuffer w = true ->
  Initialize service create_transfer_id n w = (true, set_ring_buffer_size n w) /\
  total_entry_count_ (set_ring_buffer_size n w) = total_entry_count_ w /\
  trace (set_ring_buffer_size n w) = trace w.
Proof.
  intros Hu Hr. unfold Initialize.
  rewrite (Alloc_ready service create_transfer_id (set_ring_buffer_size n w) Hu Hr).
  split; [reflexivity|split; reflexivity].
Qed.

Lemma Initialize_keeps_ring_witness :
  Initialize service_drain (fun _ => 1) 64 (scenarioA true) =
    (true, set_ring_buffer_size 64 (scenarioA true)).
Proof. apply (Initialize_keeps_ring service_drain (fun _ => 1) 64 (scenarioA true)); reflexivity. Defined.

(** FreeResources leaves the helper without a ring and with no immediate
    entries; it destroys the transfer buffer (one channel call) exactly when
    there was a ring, keeps usable_, and a second call changes nothing. *)
Theorem FreeResources_spec w :
  HaveRingBuffer (FreeResources w) = false /\
  immediate_entry_count_ (FreeResources w) =
    (if HaveRingBuffer w then 0 else immediate_entry_count_ w) /\
  trace (FreeResources w) =
    trace w ++ (if HaveRingBuffer w then [EDestroyTransferBuffer (ring_buffer_id_ w)] else []) /\
  usable (FreeResources w) = usable w /\
  FreeResources (FreeResources w) = FreeResources w.
Proof.
  assert (H0 : HaveRingBuffer (FreeResources w) = false).
  { unfold FreeResources. destruct (HaveRingBuffer w) eqn:Hr; [|exact Hr].
    rewrite Calc_no_ring by reflexivity. reflexivity. }
  split; [exact H0|].
  split; [|split; [|split]].
  - unfold FreeResources. destruct (HaveRingBuffer w); [|reflexivity].
    rewrite Calc_no_ring by reflexivity. reflexivity.
  - unfold FreeResources. destruct (HaveRingBuffer w); [|rewrite app_nil_r; reflexivity].
    rewrite Calc_no_ring by reflexivity. reflexivity.
  - unfold FreeResources. destruct (HaveRingBuffer w); [|reflexivity].
    rewrite Calc_no_ring by reflexivity. reflexivity.
  - unfold FreeResources at 1. rewrite H0. reflexivity.
Qed.

(** FlushSync on a usable helper wraps put_ from the capacity to 0, sends it
    with the last known get in one synchronous FlushSync, records the reply
    as the last state, sets last_put_sent_ to the put sent, stamps the flush
    time, advances the 32-bit flush_generation_ by one (modulo 2^32), and
    returns whether the reply carries no error.  A put within [0, capacity]
    is sent as a value in [0, capacity). *)
Theorem FlushSync_sends service clock w ok w' :
  usable w = true -> FlushSync service clock w = (ok, w') ->
  let p := if put_ w =? total_entry_count_ w then 0 else put_ w in
  let st := service (nsync w) in
  trace w' = trace w ++ [EFlushSync p (get_offset w) st] /\
  put_ w' = p /\ last_put_sent_ w' = p /\ last_state w' = st /\ nsync w' = S (nsync w) /\
  flush_generation_ w' mod 2 ^ 32 = (flush_generation_ w + 1) mod 2 ^ 32 /\
  last_flush_time_ w' = clock (length (trace w)) /\
  ok = (error_s st =? kNoError) /\
  (0 <= put_ w <= total_entry_count_ w -> 0 < total_entry_count_ w ->
   0 <= p < total_entry_count_ w).
Proof.
  intros Hu H. cbv zeta.
  unfold FlushSync, chan_FlushSync in H. rewrite Hu in H. simpl in H.
  inversion H; subst; clear H. calc_out.
  unfold wrap_put. destruct (Z.eqb_spec (put_ w) (total_entry_count_ w)) as [E|E];
    simpl; (repeat split); try reflexivity; try apply gen_incr; lia.
Qed.

Lemma FlushSync_sends_witness :
  FlushSync service_drain clock0 (ring8 false 0 0 8 3 (st8 3 3 0 kNoError)) =
    (true, snd (FlushSync service_drain clock0 (ring8 false 0 0 8 3 (st8 3 3 0 kNoError)))) /\
  put_ (snd (FlushSync service_drain clock0 (ring8 false 0 0 8 3 (st8 3 3 0 kNoError)))) = 0.
Proof.
  destruct (FlushSync service_drain clock0 (ring8 false 0 0 8 3 (st8 3 3 0 kNoError)))
    as [ok w'] eqn:E.
  destruct (FlushSync_sends service_drain clock0 (ring8 false 0 0 8 3 (st8 3 3 0 kNoError))
              ok w' eq_refl E)
    as (_ & Hp & _ & _ & _ & _ & _ & Hok & _).
  simpl. rewrite Hp. split; [rewrite Hok; reflexivity|reflexivity].
Defined.

(** Flush is idempotent: a second Flush right after a first makes no channel
    call and changes nothing. *)
Theorem Flush_idempotent clock w : Flush clock (Flush clock w) = Flush clock w.
Proof.
  assert (Hw : put_ (wrap_put w) <> total_entry_count_ (wrap_put w) \/ put_ (wrap_put w) = 0)
    by (unfold wrap_put; destruct (Z.eqb_spec (put_ w) (total_entry_count_ w)); simpl; auto).
  destruct (Flush_cases clock w) as [H1 H2].
  assert (Hu : wrap_put (Flush clock w) = Flush clock w /\
               (usable (Flush clock w) = false \/
                last_put_sent_ (Flush clock w) = put_ (wrap_put (Flush clock w)))).
  { destruct (usable w) eqn:U.
    - destruct (Z.eq_dec (last_put_sent_ w) (put_ (wrap_put w))) as [e|n].
      + rewrite H2 by auto. rewrite (wrap_put_fixed (wrap_put w) Hw). split; [reflexivity|].
        right. rewrite <- e. unfold wrap_put. destruct (_ =? _); reflexivity.
      + destruct (H1 eq_refl n) as [x ->].
        rewrite wrap_put_fixed by exact Hw. split; [reflexivity|right; reflexivity].
    - rewrite H2 by auto. rewrite (wrap_put_fixed (wrap_put w) Hw).
      split; [reflexivity|left; rewrite wrap_put_usable; exact U]. }
  destruct (Flush_cases clock (Flush clock w)) as [_ G2].
  rewrite G2 by exact (proj2 Hu). exact (proj1 Hu).
Qed.

(** Once Finish has returned true, a further Finish returns true at once,
    with no channel call. *)
Theorem Finish_idempotent service clock fuel fuel' w w1 :
  Finish service clock fuel w = Some (true, w1) ->
  Finish service clock fuel' w1 = Some (true, w1).
Proof.
  intros H. destruct (usable w) eqn:Hu.
  - destruct (Finish_result service clock fuel w true w1 Hu H) as [P _].
    pose proof (Finish_frame service clock fuel w true w1 H) as Fr.
    unfold Finish. rewrite (frame_usable _ _ Fr), Hu, (P eq_refl), Z.eqb_refl. reflexivity.
  - unfold Finish in H. rewrite Hu in H. discriminate.
Qed.

Lemma Finish_idempotent_witness :
  exists w1, Finish service_drain clock0 3 (ring8 false 0 0 6 0 (st8 2 6 0 kNoError)) = Some (true, w1) /\
             Finish service_drain clock0 0 w1 = Some (true, w1).
Proof.
  destruct (Finish service_drain clock0 3 (ring8 false 0 0 6 0 (st8 2 6 0 kNoError)))
    as [[b w1]|] eqn:E; [|vm_compute in E; discriminate].
  assert (Hb : b = true) by (vm_compute in E; congruence). subst b.
  exists w1. split; [reflexivity|].
  exact (Finish_idempotent service_drain clock0 3 0 _ w1 E).
Defined.

(** When WaitForToken returns (rather than aborting), it has made only
    FlushSync calls and left the token counter alone, and either the service
    has acknowledged the token, or the last FlushSync reported an error, or
    it returned at once with nothing changed because the helper is unusable
    or has no ring, the token is negative, or it is above the counter. *)
Theorem WaitForToken_returns service clock fuel t w w' :
  WaitForToken service clock fuel t w = Some (WaitReturned, w') ->
  (exists evs, trace w' = trace w ++ evs /\ Forall (fun e => is_flush_sync e = true) evs) /\
  token_ w' = token_ w /\
  (t <= last_token_read w' \/ error_s (last_state w') <> kNoError \/
   (w' = w /\ (usable w = false \/ HaveRingBuffer w = false \/ t < 0 \/ token_ w < t))).
Proof.
  intros H.
  assert (Tk : token_ w' = token_ w)
    by exact (frame_token _ _ (WaitForToken_frame service clock fuel t w _ w' H)).
  assert (Nil : exists evs, trace w = trace w ++ evs /\ Forall (fun e => is_flush_sync e = true) evs)
    by (exists []; rewrite app_nil_r; split; [reflexivity|constructor]).
  unfold WaitForToken in H.
  destruct (negb (usable w) || negb (HaveRingBuffer w)) eqn:C.
  - inversion H; subst. split; [exact Nil|]. split; [reflexivity|]. right; right.
    split; [reflexivity|]. apply orb_true_iff in C as [C|C]; apply negb_true_iff in C; auto.
  - apply orb_false_iff in C as [C1 C2]. apply negb_false_iff in C1.
    destruct (Z.ltb_spec t 0).
    + inversion H; subst. split; [exact Nil|]. split; [reflexivity|]. right; right. auto.
    + destruct (Z.gtb_spec t (token_ w)).
      * inversion H; subst. split; [exact Nil|]. split; [reflexivity|]. right; right. auto.
      * destruct (wait_token_loop_returned service clock fuel t w w' C1 H) as [Tr R].
        split; [exact Tr|]. split; [exact Tk|]. destruct R; auto.
Qed.

Lemma WaitForToken_returns_witness :
  exists w', WaitForToken service_ack clock0 3 1 (ring8 true 0 1 3 3 (st8 1 3 0 kNoError))
             = Some (WaitReturned, w') /\ 1 <= last_token_read w'.
Proof.
  destruct (WaitForToken service_ack clock0 3 1 (ring8 true 0 1 3 3 (st8 1 3 0 kNoError)))
    as [[o w']|] eqn:E; [|vm_compute in E; discriminate].
  assert (Ho : o = WaitReturned) by (vm_compute in E; congruence). subst o.
  exists w'. split; [reflexivity|].
  destruct (WaitForToken_returns service_ack clock0 3 1 _ w' E) as (_ & _ & [R|[R|(Hw & R)]]);
    [exact R|vm_compute in E; inversion E; subst w'; vm_compute in R; congruence|].
  subst w'. vm_compute in E. discriminate.
Defined.

(** WaitForAvailableEntries(count) returns in one of three situations: the
    helper is (or became) unusable, at least [count] entries are immediately
    available, or the last FlushSync reported an error. *)
Theorem WaitForAvailableEntries_returns service create_transfer_id clock fuel count w w' :
  WaitForAvailableEntries service create_transfer_id clock fuel count w = Some w' ->
  usable w' = false \/ count <= immediate_entry_count_ w' \/
  error_s (last_state w') <> kNoError.
Proof.
  intros H.
  assert (H0 := H). unfold WaitForAvailableEntries in H0.
  destruct (AllocateRingBuffer service create_transfer_id w) as [b w1] eqn:A.
  destruct (Alloc_result service create_transfer_id w b w1 A) as (_ & Ur & _).
  destruct (usable w1) eqn:U; simpl in H0.
  - destruct (Ur eq_refl) as [_ Hr]. right.
    assert (H1 : WaitForAvailableEntries service create_transfer_id clock fuel count w1 = Some w').
    { unfold WaitForAvailableEntries. rewrite (Alloc_ready service create_transfer_id w1 U Hr).
      rewrite U. exact H0. }
    exact (proj2 (WaitForAvailableEntries_ready service create_transfer_id clock fuel count w1 w'
                    U Hr H1)).
  - inversion H0; subst. left. exact U.
Qed.

Lemma WaitForAvailableEntries_returns_witness :
  exists w', WaitForAvailableEntries serviceB (fun _ => 1) clock0 10 4 scenarioB = Some w' /\
    (usable w' = false \/ 4 <= immediate_entry_count_ w' \/
     error_s (last_state w') <> kNoError).
Proof.
  destruct (WaitForAvailableEntries serviceB (fun _ => 1) clock0 10 4 scenarioB) as [w'|] eqn:E;
    [|vm_compute in E; discriminate].
  exists w'. split; [reflexivity|].
  exact (WaitForAvailableEntries_returns serviceB (fun _ => 1) clock0 10 4 scenarioB w' E).
Defined.

Lemma run_op_trace_gen service create_transfer_id clock fuel op w w' :
  run_op service create_transfer_id clock fuel op w = Some w' ->
  exists evs, trace w' = trace w ++ evs /\
    flush_generation_ w' mod 2 ^ 32 = (flush_generation_ w + fcount evs) mod 2 ^ 32.
Proof.
  intros H. pose proof (run_op_effect service create_transfer_id clock fuel op w w' H) as E.
  destruct op; try exact (proj2 (proj2 (proj2 E))).
  subst w'. exists []. rewrite app_nil_r. split; [reflexivity|apply gen_nil].
Qed.

(** Every public operation, and every sequence of them, only appends to the
    command trace, and the 32-bit flush_generation_ advances, modulo 2^32,
    by exactly the number of Flush and FlushSync messages appended. *)
Theorem flush_generation_counts service create_transfer_id clock fuel ops w w' :
  run_ops service create_transfer_id clock fuel ops w = Some w' ->
  exists evs, trace w' = trace w ++ evs /\
    flush_generation_ w' mod 2 ^ 32 = (flush_generation_ w + fcount evs) mod 2 ^ 32.
Proof.
  revert w. induction ops as [|op r IH]; intros w H; cbn [run_ops] in H.
  - inversion H; subst. exists []. rewrite app_nil_r. split; [reflexivity|apply gen_nil].
  - destruct (run_op service create_transfer_id clock fuel op w) as [w1|] eqn:E; [|discriminate].
    destruct (run_op_trace_gen service create_transfer_id clock fuel op w w1 E) as (e1 & T1 & G1).
    destruct (IH w1 H) as (e2 & T2 & G2).
    exists (e1 ++ e2). rewrite T2, T1, app_assoc, fcount_app.
    split; [reflexivity|exact (gen_trans _ _ _ _ _ G1 G2)].
Qed.

Lemma flush_generation_counts_witness :
  exists w', run_ops service_ack (fun _ => 1) clock0 3 [OpFlushSync; OpFlush]
               (set_flush_generation 4294967295 (scenarioA true)) = Some w' /\
    exists evs, trace w' = trace (set_flush_generation 4294967295 (scenarioA true)) ++ evs /\
      flush_generation_ w' mod 2 ^ 32 =
        (flush_generation_ (set_flush_generation 4294967295 (scenarioA true)) + fcount evs)
          mod 2 ^ 32.
Proof.
  destruct (run_ops service_ack (fun _ => 1) clock0 3 [OpFlushSync; OpFlush]
              (set_flush_generation 4294967295 (scenarioA true))) as [w'|] eqn:E;
    [|vm_compute in E; discriminate].
  exists w'. split; [reflexivity|].
  exact (flush_generation_counts service_ack (fun _ => 1) clock0 3 _ _ w' E).
Defined.

(** Once context_lost_ is set, no public operation and no sequence of them
    clears it, and IsContextLost keeps reporting true. *)
Theorem context_lost_sticky service create_transfer_id clock fuel ops w w' :
  run_ops service create_transfer_id clock fuel ops w = Some w' ->
  context_lost_ w = true ->
  context_lost_ w' = true /\ fst (IsContextLost w') = true.
Proof.
  intros H C.
  pose proof (run_ops_ctx service create_transfer_id clock fuel ops w w' H C) as C'.
  split; [exact C'|]. rewrite IsContextLost_eq. simpl. rewrite C'. reflexivity.
Qed.

Lemma context_lost_sticky_witness :
  exists w', run_ops service_ack (fun _ => 1) clock0 3 [OpFlushSync; OpFlush; OpIsContextLost]
               (set_context_lost true (scenarioA true)) = Some w' /\
    context_lost_ w' = true /\ fst (IsContextLost w') = true.
Proof.
  destruct (run_ops service_ack (fun _ => 1) clock0 3 [OpFlushSync; OpFlush; OpIsContextLost]
              (set_context_lost true (scenarioA true))) as [w'|] eqn:E;
    [|vm_compute in E; discriminate].
  exists w'. split; [reflexivity|].
  exact (context_lost_sticky service_ack (fun _ => 1) clock0 3 _ _ w' E eq_refl).
Defined.

(** Only Initialize changes ring_buffer_size_; it stores its argument even
    when the allocation fails. *)
Theorem ring_buffer_size_only_Initialize service create_transfer_id clock fuel op w w' :
  run_op service create_transfer_id clock fuel op w = Some w' ->
  ring_buffer_size_ w' = match op with OpInitialize n => n | _ => ring_buffer_size_ w end.
Proof.
  intros H. pose proof (run_op_effect service create_transfer_id clock fuel op w w' H) as E.
  destruct op; try exact (proj1 (proj2 (proj2 E))).
  subst w'. reflexivity.
Qed.

Lemma ring_buffer_size_only_Initialize_witness :
  exists w', run_op service_drain (fun _ => -1) clock0 3 (OpInitialize 32)
               (new_helper (st8 0 0 0 kNoError) 0) = Some w' /\ ring_buffer_size_ w' = 32.
Proof.
  destruct (run_op service_drain (fun _ => -1) clock0 3 (OpInitialize 32)
              (new_helper (st8 0 0 0 kNoError) 0)) as [w'|] eqn:E; [|vm_compute in E; discriminate].
  exists w'. split; [reflexivity|].
  exact (ring_buffer_size_only_Initialize service_drain (fun _ => -1) clock0 3 _ _ w' E).
Defined.

(** Only InsertToken changes the token counter. *)
Theorem token_only_InsertToken service create_transfer_id clock fuel op w w' :
  op <> OpInsertToken ->
  run_op service create_transfer_id clock fuel op w = Some w' ->
  token_ w' = token_ w.
Proof.
  intros Hn. destruct op; simpl; intros H; [| | | | | | | | |exfalso; apply Hn; reflexivity| | |].
  - inversion H; subst. unfold SetAutomaticFlushes. rewrite (frame_token _ _ (frame_Calc _ _)). reflexivity.
  - inversion H; subst. unfold IsContextLost. destruct (negb _); reflexivity.
  - inversion H; subst.
    destruct (AllocateRingBuffer service create_transfer_id w) as [b w1] eqn:A.
    exact (proj1 (Alloc_result service create_transfer_id w b w1 A)).
  - inversion H; subst. unfold FreeResources. destruct (HaveRingBuffer w); [|reflexivity].
    rewrite (frame_token _ _ (frame_Calc _ _)). reflexivity.
  - unfold FreeRingBuffer in H. destruct (_ || _); inversion H; subst.
    unfold FreeResources. destruct (HaveRingBuffer w); [|reflexivity].
    rewrite (frame_token _ _ (frame_Calc _ _)). reflexivity.
  - inversion H; subst. unfold Initialize.
    destruct (AllocateRingBuffer service create_transfer_id (set_ring_buffer_size ring_buffer_size w))
      as [b w1] eqn:A.
    exact (proj1 (Alloc_result service create_transfer_id _ b w1 A)).
  - inversion H; subst. apply frame_token, frame_FlushSync.
  - inversion H; subst. apply frame_token, frame_Flush.
  - destruct (Finish service clock fuel w) as [[b w1]|] eqn:F; inversion H; subst.
    exact (frame_token _ _ (Finish_frame service clock fuel w b w' F)).
  - destruct (WaitForToken service clock fuel token w) as [[[] w1]|] eqn:E; inversion H; subst.
    exact (frame_token _ _ (WaitForToken_frame service clock fuel token w _ w' E)).
  - destruct (WaitForAvailableEntries_alloc service create_transfer_id clock fuel count w w' H)
      as (b & w1 & A & _ & T).
    rewrite T. exact (proj1 (Alloc_result service create_transfer_id w b w1 A)).
  - destruct (GetSpace service create_transfer_id clock fuel entries w) as [[o w1]|] eqn:G;
      inversion H; subst.
    exact (proj1 (GetSpace_alloc service create_transfer_id clock fuel entries w o w' G)).
Qed.

Lemma token_only_InsertToken_witness :
  exists w', run_op service_ack (fun _ => 1) clock0 3 OpFlushSync (scenarioA true) = Some w' /\
    token_ w' = token_ (scenarioA true).
Proof.
  destruct (run_op service_ack (fun _ => 1) clock0 3 OpFlushSync (scenarioA true)) as [w'|] eqn:E;
    [|vm_compute in E; discriminate].
  exists w'. split; [reflexivity|].
  apply (token_only_InsertToken service_ack (fun _ => 1) clock0 3 OpFlushSync _ w'); [discriminate|exact E].
Defined.
